(** * Werewolf card PDF generator: a shallow embedding of
      [generate_cards_pdf.py] and the properties of its inventory,
      layout and pagination code.

    Python values are modelled as Rocq data: unbounded [int] as [Z],
    [float] as IEEE binary64 ([PrimFloat.float]), [str] as [string],
    [dict] as [gmap] (constant tables that are iterated keep their
    insertion order as association lists), exceptions as an error monad,
    and [print] and canvas calls as a trace of events. *)

From Stdlib Require Import PrimFloat SpecFloat FloatOps.
From Stdlib Require Import ZArith QArith Qround Lia.
From stdpp Require Import gmap strings list pretty.

Set Warnings "-inexact-float".
Close Scope Q_scope.
Local Open Scope Z_scope.

(** ** Python exceptions and the error monad *)

Inductive exception :=
| KeyError (key : string)
| IndexError
| ZeroDivisionError
| OverflowError
| ValueError
| FileNotFoundError (msg : string)
| PermissionError (msg : string)
| DrawingError.

Inductive result (A : Type) :=
| Ok (a : A)
| Raise (e : exception).
Arguments Ok {A} a.
Arguments Raise {A} e.

Global Instance result_ret : MRet result := @Ok.
Global Instance result_bind : MBind result := λ A B f m,
  match m with
  | Ok a => f a
  | Raise e => Raise e
  end.

(** ** Python integers, sequences and dictionaries *)

(** [a // b] on integers.  [Z.div] rounds towards minus infinity like
    Python does; only the zero divisor has to be written out. *)
Definition py_floordiv (a b : Z) : result Z :=
  if decide (b = 0) then Raise ZeroDivisionError else Ok (a / b).

(** [a % b] on integers. *)
Definition py_mod (a b : Z) : result Z :=
  if decide (b = 0) then Raise ZeroDivisionError else Ok (a mod b).

(** [len(l)]. *)
Definition len {A} (l : list A) : Z := Z.of_nat (length l).

(** [range(n)] and [range(a, b)]. *)
Definition py_range2 (a b : Z) : list Z := seqZ a (b - a).
Definition py_range (n : Z) : list Z := py_range2 0 n.

(** [l[i]] on a list: a negative index counts from the end, an index out
    of range raises [IndexError]. *)
Definition py_getitem {A} (l : list A) (i : Z) : result A :=
  let j := if decide (i < 0) then i + len l else i in
  if decide (j < 0) then Raise IndexError
  else match l !! Z.to_nat j with
       | Some x => Ok x
       | None => Raise IndexError
       end.

(** [x for _ in range(n)]. *)
Definition py_repeat {A} (x : A) (n : Z) : list A := replicate (Z.to_nat n) x.

(** A dictionary whose iteration order matters is an association list in
    insertion order (all constant tables of the program have distinct
    keys). *)
Definition odict (K V : Type) := list (K * V).

Fixpoint od_find `{EqDecision K} {V} (d : odict K V) (k : K) : option V :=
  match d with
  | [] => None
  | (k', v) :: d' => if decide (k' = k) then Some v else od_find d' k
  end.

(** [d.items()], [d.values()]. *)
Definition od_items {K V} (d : odict K V) : list (K * V) := d.
Definition od_values {K V} (d : odict K V) : list V := d.*2.

(** Values stored in the quantities dictionary: counts and presence
    flags. *)
Inductive pyval :=
| PyInt (z : Z)
| PyBool (b : bool).

(** A [bool] is an [int] in arithmetic and comparisons. *)
Definition as_int (v : pyval) : Z :=
  match v with
  | PyInt z => z
  | PyBool b => if b then 1 else 0
  end.

(** [str(v)], as an f-string formats it. *)
Definition py_str (v : pyval) : string :=
  match v with
  | PyInt z => pretty z
  | PyBool b => if b then "True" else "False"
  end.

(** [d[key]] on a string-keyed dictionary. *)
Definition dict_getitem {V} (d : gmap string V) (key : string) : result V :=
  match d !! key with
  | Some v => Ok v
  | None => Raise (KeyError key)
  end.

(** ** Paths *)

(** A [pathlib.Path]: the anchor (drive and root) and the remaining
    components.  [name] is the final component, empty when there is
    none. *)
Record Path := mkPath { anchor : string; segments : list string }.

Global Instance Path_eq_dec : EqDecision Path.
Proof. solve_decision. Defined.

Definition name (p : Path) : string := List.last (segments p) "".

Fixpoint join_segments (l : list string) : string :=
  match l with
  | [] => ""
  | [s] => s
  | s :: l' => s +:+ "/" +:+ join_segments l'
  end.

(** [str(path)]. *)
Definition path_str (p : Path) : string :=
  match anchor p, segments p with
  | "", [] => "."
  | a, l => a +:+ join_segments l
  end.

(** [path / child] for a single relative component. *)
Definition path_child (p : Path) (child : string) : Path :=
  mkPath (anchor p) (segments p ++ [child]).

(** ** Constants *)

Definition CARDS_DIR : Path := mkPath "" ["Cartes"].
Definition OUTPUT_FILENAME : string := "cartes_impression.pdf".

Definition MARGIN : Z := 15.
Definition CARD_MAX_SIZE : Z := 80.
Definition CARD_SPACING_V : Z := 8.
Definition CARD_SPACING_H_MIN : Z := 10.

Inductive CardType := VILLAGER | WEREWOLF | FEATHERS | CAPTAIN | BACK.

Global Instance CardType_eq_dec : EqDecision CardType.
Proof. solve_decision. Defined.

Definition CardType_to_nat (t : CardType) : nat :=
  match t with
  | VILLAGER => 0 | WEREWOLF => 1 | FEATHERS => 2 | CAPTAIN => 3 | BACK => 4
  end%nat.

Definition CardType_of_nat (n : nat) : CardType :=
  match n with
  | 0 => VILLAGER | 1 => WEREWOLF | 2 => FEATHERS | 3 => CAPTAIN | _ => BACK
  end%nat.

Global Instance CardType_countable : Countable CardType :=
  inj_countable' CardType_to_nat CardType_of_nat
    (λ t, match t with
          | VILLAGER | WEREWOLF | FEATHERS | CAPTAIN | BACK => eq_refl
          end).

(** The members of the enumeration in definition order, and their
    values. *)
Definition CardType_members : list CardType :=
  [VILLAGER; WEREWOLF; FEATHERS; CAPTAIN; BACK].

Definition value (t : CardType) : string :=
  match t with
  | VILLAGER => "Simple Villageois.png"
  | WEREWOLF => "Loup Garou.png"
  | FEATHERS => "Plumes du corbeau.png"
  | CAPTAIN => "Capitaine.png"
  | BACK => "Dos-Cartes.png"
  end.

Definition CARD_QUANTITIES : odict CardType Z :=
  [(VILLAGER, 6); (WEREWOLF, 4); (FEATHERS, 2); (CAPTAIN, 2)].

Definition QUANTITY_KEYS : odict CardType string :=
  [(VILLAGER, "villageois_count"); (WEREWOLF, "loup_garou_count");
   (FEATHERS, "plumes_corbeau_count"); (CAPTAIN, "capitaine_count")].

Definition PRESENCE_FLAGS : odict CardType string :=
  [(VILLAGER, "has_villageois"); (WEREWOLF, "has_loup_garou");
   (FEATHERS, "has_plumes_corbeau"); (CAPTAIN, "has_capitaine");
   (BACK, "has_dos")].

Definition DOUBLE_SIDED_CARDS : list CardType := [VILLAGER; CAPTAIN; FEATHERS].

(** [d[k]] on a constant table. *)
Definition od_getitem {V} (d : odict CardType V) (k : CardType) : result V :=
  match od_find d k with
  | Some v => Ok v
  | None => Raise (KeyError (value k))
  end.

(** ** The inventory *)

Record CardInventory := mkCardInventory {
  categorized : gmap CardType (list Path);
  others : list Path;
  quantities : gmap string pyval;
}.

Definition total_face_cards (inv : CardInventory) : result pyval :=
  dict_getitem (quantities inv) "total_cartes_face".

Definition back_count (inv : CardInventory) : result pyval :=
  dict_getitem (quantities inv) "dos_count".

Definition total_cards (inv : CardInventory) : result pyval :=
  dict_getitem (quantities inv) "total_cartes".

(** [card_type in categorized] and [categorized[card_type]]. *)
Definition has_type (cat : gmap CardType (list Path)) (t : CardType) : bool :=
  bool_decide (is_Some (cat !! t)).

Definition cat_getitem (cat : gmap CardType (list Path)) (t : CardType)
    : result (list Path) :=
  match cat !! t with
  | Some l => Ok l
  | None => Raise (KeyError (value t))
  end.

(** The first loop of [_calculate_quantities]: one count per entry of
    [CARD_QUANTITIES]. *)
Fixpoint base_quantities (cat : gmap CardType (list Path))
    (items : list (CardType * Z)) (q : gmap string pyval)
    : result (gmap string pyval) :=
  match items with
  | [] => Ok q
  | (card_type, base_qty) :: rest =>
      key ← od_getitem QUANTITY_KEYS card_type;
      base_quantities cat rest
        (<[key := PyInt (if has_type cat card_type then base_qty else 0)]> q)
  end.

(** [sum(quantities.get(key, 0) for key in keys)]. *)
Definition sum_quantities (q : gmap string pyval) (keys : list string) : Z :=
  foldl (λ acc key, acc + as_int (default (PyInt 0) (q !! key))) 0 keys.

(** The last loop of [_calculate_quantities]: one flag per entry of
    [PRESENCE_FLAGS]. *)
Definition presence_flags (cat : gmap CardType (list Path))
    (items : list (CardType * string)) (q : gmap string pyval)
    : gmap string pyval :=
  foldl (λ acc '(card_type, flag_key),
           <[flag_key := PyBool (has_type cat card_type)]> acc) q items.

Definition _calculate_quantities (cat : gmap CardType (list Path))
    (others : list Path) : result (gmap string pyval) :=
  q ← base_quantities cat (od_items CARD_QUANTITIES) ∅;
  let q := <["autres_cartes" := PyInt (len others)]> q in
  let total_face := len others + sum_quantities q (od_values QUANTITY_KEYS) in
  let q := <["total_cartes_face" := PyInt total_face]> q in
  let double_sided_reduction :=
    foldl Z.add 0 ((λ _, 2) <$> filter (λ t, has_type cat t) DOUBLE_SIDED_CARDS) in
  let q := <["dos_count" :=
              PyInt (if has_type cat BACK then Z.max 0 (total_face - 6) else 0)]> q in
  dos ← dict_getitem q "dos_count";
  let q := <["total_cartes" := PyInt (total_face + as_int dos)]> q in
  Ok (presence_flags cat (od_items PRESENCE_FLAGS) q).

(** [{card_type.value: card_type for card_type in CardType}]. *)
Definition type_mapping : gmap string CardType :=
  foldl (λ m card_type, <[value card_type := card_type]> m) ∅ CardType_members.

(** One iteration of the categorizing loop; [categorized] is a
    [defaultdict(list)], so a first append creates the entry. *)
Definition categorize_step (st : gmap CardType (list Path) * list Path)
    (card_path : Path) : gmap CardType (list Path) * list Path :=
  let '(cat, oth) := st in
  let filename := name card_path in
  match type_mapping !! filename with
  | Some t => (<[t := default [] (cat !! t) ++ [card_path]]> cat, oth)
  | None => (cat, oth ++ [card_path])
  end.

Definition categorize_cards (card_files : list Path) : result CardInventory :=
  let '(cat, oth) := foldl categorize_step (∅, []) card_files in
  quantities ← _calculate_quantities cat oth;
  Ok (mkCardInventory cat oth quantities).

(** ** Python floats *)

(** Python's [float] is IEEE binary64 with round-to-nearest-even, which
    is what [PrimFloat] computes.  [+], [-] and [*] never raise; the
    operations below are the ones that can, or that the primitive
    operations do not provide. *)

(** The conversion of an [int] operand in mixed arithmetic: correctly
    rounded, [OverflowError] beyond the range of a double. *)
Definition float_of_int (z : Z) : result float :=
  let f := SF2Prim (binary_normalize prec emax z 0 false) in
  if is_infinity f then Raise OverflowError else Ok f.

(** [n * x] and [x / n] with an [int] [n] and a [float] [x]. *)
Definition int_mul_float (n : Z) (x : float) : result float :=
  f ← float_of_int n; Ok (f * x)%float.

Definition float_truediv (x y : float) : result float :=
  if (y =? 0)%float then Raise ZeroDivisionError else Ok (x / y)%float.

Definition float_div_int (x : float) (n : Z) : result float :=
  f ← float_of_int n; float_truediv x f.

(** [min(a, b)]: the first argument unless the second is smaller. *)
Definition py_min (a b : float) : float := if (b <? a)%float then b else a.

(** C's [fmod]: the exact remainder of the truncated division, with the
    sign of [x]. *)
Definition float_fmod (x y : float) : float :=
  match Prim2SF x, Prim2SF y with
  | S754_nan, _ | _, S754_nan => nan
  | S754_infinity _, _ => nan
  | _, S754_zero _ => nan
  | S754_zero _, _ => x
  | S754_finite _ _ _, S754_infinity _ => x
  | S754_finite sx mx ex, S754_finite _ my ey =>
      let e := Z.min ex ey in
      match (Z.pos mx * 2 ^ (ex - e)) mod (Z.pos my * 2 ^ (ey - e)) with
      | Z.pos r => SF2Prim (S754_finite sx r e)
      | _ => if sx then neg_zero else zero
      end
  end.

(** C's [floor]. *)
Definition float_floor (x : float) : float :=
  match Prim2SF x with
  | S754_finite s m e =>
      if 0 <=? e then x
      else
        let q := Z.shiftl (Z.pos m) e in
        let exact := Z.shiftl q (- e) =? Z.pos m in
        let n := if s then (if exact then - q else - q - 1) else q in
        SF2Prim (binary_normalize prec emax n 0 false)
  | _ => x
  end.

(** [x // y] on floats, as CPython computes it: the quotient is rebuilt
    from the exact remainder and snapped to the nearest integral
    value. *)
Definition float_floordiv (vx wx : float) : result float :=
  if (wx =? 0)%float then Raise ZeroDivisionError
  else
    let mod_ := float_fmod vx wx in
    let div := ((vx - mod_) / wx)%float in
    let div :=
      if negb (mod_ =? 0)%float && xorb (wx <? 0)%float (mod_ <? 0)%float
      then (div - 1)%float else div in
    if negb (div =? 0)%float then
      let floordiv := float_floor div in
      Ok (if (0.5 <? div - floordiv)%float then (floordiv + 1)%float else floordiv)
    else Ok (if get_sign (vx / wx)%float then neg_zero else zero).

(** [int(x)]: truncation towards zero. *)
Definition int_of_float (x : float) : result Z :=
  match Prim2SF x with
  | S754_nan => Raise ValueError
  | S754_infinity _ => Raise OverflowError
  | S754_zero _ => Ok 0
  | S754_finite s m e =>
      let a := Z.shiftl (Z.pos m) e in Ok (if s then - a else a)
  end.

(** The rational number a finite float denotes. *)
Definition float_to_Q (x : float) : option Q :=
  match Prim2SF x with
  | S754_zero _ => Some 0%Q
  | S754_finite s m e =>
      let v := if 0 <=? e then inject_Z (Z.pos m * 2 ^ e)
               else Qmake (Z.pos m) (Z.to_pos (2 ^ (- e))) in
      Some (if s then Qopp v else v)
  | _ => None
  end.

(** ** The units and page size of the PDF library *)

(** The program imports [mm] and [A4] from reportlab
    ([reportlab.lib.units], [reportlab.lib.pagesizes]); lengths are in
    points, 72 to the inch. *)
Definition inch : float := 72%float.
Definition cm : float := (inch / 2.54)%float.
Definition mm : float := (cm * 0.1)%float.
Definition A4 : float * float := ((210 * mm)%float, (297 * mm)%float).

(** ** Layout *)

Record LayoutConfig := mkLayoutConfig {
  card_size : float;
  cards_per_row : Z;
  cards_per_col : Z;
  horizontal_spacing : float;
}.

Definition cards_per_page (layout : LayoutConfig) : Z :=
  cards_per_row layout * cards_per_col layout.

Record CardPDFGenerator := mkCardPDFGenerator {
  output_filename : string;
  page_width : float;
  page_height : float;
}.

(** [CardPDFGenerator.__init__]. *)
Definition CardPDFGenerator_init (output_filename : string) : CardPDFGenerator :=
  mkCardPDFGenerator output_filename A4.1 A4.2.

Definition _calculate_layout (self : CardPDFGenerator) : result LayoutConfig :=
  margins ← int_mul_float (2 * MARGIN) mm;
  let available_width := (page_width self - margins)%float in
  margins ← int_mul_float (2 * MARGIN) mm;
  let available_height := (page_height self - margins)%float in
  let cards_per_row := 2 in
  max_size ← int_mul_float CARD_MAX_SIZE mm;
  min_gap ← int_mul_float CARD_SPACING_H_MIN mm;
  fitting ← float_div_int (available_width - min_gap)%float 2;
  let card_size := py_min max_size fitting in
  total_card_width ← int_mul_float cards_per_row card_size;
  horizontal_spacing ←
    float_div_int (available_width - total_card_width)%float (cards_per_row + 1);
  v_gap ← int_mul_float CARD_SPACING_V mm;
  rows ← float_floordiv available_height (card_size + v_gap)%float;
  cards_per_col ← int_of_float rows;
  Ok (mkLayoutConfig card_size cards_per_row cards_per_col horizontal_spacing).

(** ** Effects: the console and the PDF canvas *)

(** The calls that reach outside the program are modelled by what they
    can do to the run.  [c.drawImage] raises for a file the canvas
    cannot draw, and [c.save()] raises when the document cannot be
    written; both depend on the environment, see [world].
    [canvas.Canvas(...)] only records the file name -- the file is
    opened by [c.save()] -- and the other canvas calls draw into memory.
    The console is taken to accept every message: [print] does not
    raise. *)

(** The parts of a printed message.  Formatted floats and exception
    texts are kept symbolic. *)
Inductive fragment :=
| FStr (s : string)
| FFloat0 (x : float)
| FExc (e : exception).

Inductive event :=
| Print (text : list fragment)
| NewCanvas (filename : string)
| SetFont (font : string) (size : Z)
| DrawString (x y : float) (text : string)
| DrawImage (image : string) (x y width height : float)
| Rect (x y width height : float)
| ShowPage
| Save.

Definition is_canvas_event (e : event) : bool :=
  match e with
  | Print _ => false
  | _ => true
  end.

Definition is_card_drawing (e : event) : bool :=
  match e with
  | DrawImage _ _ _ _ _ | Rect _ _ _ _ => true
  | _ => false
  end.

Definition is_show_page (e : event) : bool :=
  match e with
  | ShowPage => true
  | _ => false
  end.

(** What the file system holds at a path: nothing, something that is
    not a directory (a regular file, say), or a directory with its
    entries in scan order. *)
Inductive path_state :=
| Absent
| NotADirectory
| Directory (entries : list string).

(** [Path.is_dir()]: there is a folder at the path. *)
Definition is_dir (s : path_state) : bool :=
  match s with
  | Directory _ => true
  | Absent | NotADirectory => false
  end.

(** [Path.exists()]. *)
Definition path_exists (s : path_state) : bool :=
  match s with
  | Absent => false
  | NotADirectory | Directory _ => true
  end.

(** [Path.iterdir()] as [glob] uses it: a path that is no directory has
    no entries to offer. *)
Definition path_entries (s : path_state) : list string :=
  match s with
  | Directory entries => entries
  | Absent | NotADirectory => []
  end.

(** What the program meets in its environment: what is at the path of
    the cards directory, which image files the canvas can draw, and for
    each file name the exception that writing the document there raises
    ([None] when the file can be written). *)
Record world := mkWorld {
  cards_dir : path_state;
  drawable : string → bool;
  write_error : string → option exception;
}.

(** A computation that prints or draws and may raise: the events it
    produced, in order, and its outcome. *)
Record io (A : Type) := IO { trace : list event; outcome : result A }.
Arguments IO {A} trace outcome.
Arguments trace {A} _.
Arguments outcome {A} _.

Global Instance io_ret : MRet io := λ A a, IO [] (Ok a).
Global Instance io_bind : MBind io := λ A B f m,
  match m with
  | IO t (Ok a) => let '(IO t' o) := f a in IO (t ++ t') o
  | IO t (Raise e) => IO t (Raise e)
  end.

Definition emit (e : event) : io unit := IO [e] (Ok tt).
Definition lift {A} (r : result A) : io A := IO [] r.
Definition print (s : string) : io unit := emit (Print [FStr s]).

(** [for x in l: body], with a loop variable carried along. *)
Fixpoint io_fold {A S} (body : S → A → io S) (s : S) (l : list A) : io S :=
  match l with
  | [] => mret s
  | x :: l' => s' ← body s x; io_fold body s' l'
  end.

Definition io_for {A} (l : list A) (body : A → io unit) : io unit :=
  io_fold (λ _ x, body x) tt l.

Definition nl : string := String (Ascii.ascii_of_nat 10) "".

Definition ends_with (suffix s : string) : bool :=
  let n := String.length s in
  let k := String.length suffix in
  (k <=? n)%nat && String.eqb (String.substring (n - k) k s) suffix.

(** [dir.glob("*.png")] keeps the entries whose name ends in [.png]. *)
Definition glob_png (dir : Path) (s : path_state) : list Path :=
  path_child dir <$> filter (λ s, ends_with ".png" s) (path_entries s).

Definition scan_card_files (w : world) : result (list Path) :=
  if negb (path_exists (cards_dir w)) then
    Raise (FileNotFoundError
             ("Cards directory '" +:+ path_str CARDS_DIR +:+ "' not found"))
  else Ok (glob_png CARDS_DIR (cards_dir w)).

(** [c.save()]: the document is written to its file, or the attempt
    raises. *)
Definition save (w : world) (filename : string) : io unit :=
  match write_error w filename with
  | None => emit Save
  | Some e => lift (Raise e)
  end.

(** ** The card list *)

(** One iteration of the first loop of [_prepare_card_list]. *)
Definition extend_with_type (inventory : CardInventory) (cards : list Path)
    (card_type : CardType) : result (list Path) :=
  match od_find QUANTITY_KEYS card_type with
  | Some quantity_key =>
      if bool_decide (quantity_key ≠ "") && has_type (categorized inventory) card_type
      then
        q ← dict_getitem (quantities inventory) quantity_key;
        if bool_decide (0 < as_int q) then
          paths ← cat_getitem (categorized inventory) card_type;
          first ← py_getitem paths 0;
          Ok (cards ++ py_repeat first (as_int q))
        else Ok cards
      else Ok cards
  | None => Ok cards
  end.

Fixpoint result_fold {A S} (body : S → A → result S) (s : S) (l : list A)
    : result S :=
  match l with
  | [] => Ok s
  | x :: l' => s' ← body s x; result_fold body s' l'
  end.

Definition _prepare_card_list (inventory : CardInventory) : result (list Path) :=
  cards ← result_fold (extend_with_type inventory) []
             [VILLAGER; WEREWOLF; FEATHERS; CAPTAIN];
  let cards := cards ++ others inventory in
  if has_type (categorized inventory) BACK then
    n ← back_count inventory;
    if bool_decide (0 < as_int n) then
      paths ← cat_getitem (categorized inventory) BACK;
      first ← py_getitem paths 0;
      Ok (cards ++ py_repeat first (as_int n))
    else Ok cards
  else Ok cards.

(** ** The instructions page *)

Definition type_to_desc : odict CardType string :=
  [(VILLAGER, "Villageois → 3x Villageois-Villageois");
   (WEREWOLF, "Loup Garou (séparés)");
   (FEATHERS, "Plumes → 1x collée");
   (CAPTAIN, "Capitaine → 1x collée")].

(** One iteration of the loop over [type_to_desc.items()]. *)
Definition summary_line (inventory : CardInventory) (items : list string)
    (entry : CardType * string) : result (list string) :=
  let '(card_type, desc) := entry in
  match od_find QUANTITY_KEYS card_type with
  | Some qty_key =>
      if bool_decide (qty_key ≠ "") && has_type (categorized inventory) card_type
      then
        q ← dict_getitem (quantities inventory) qty_key;
        if bool_decide (0 < as_int q)
        then Ok (items ++ ["• " +:+ py_str q +:+ "x " +:+ desc])
        else Ok items
      else Ok items
  | None => Ok items
  end.

Definition _generate_content_summary (inventory : CardInventory)
    : result (list string) :=
  items ← result_fold (summary_line inventory) [] (od_items type_to_desc);
  autres ← dict_getitem (quantities inventory) "autres_cartes";
  let items :=
    if bool_decide (0 < as_int autres)
    then items ++ ["• " +:+ py_str autres +:+ "x Cartes spéciales"]
    else items in
  items ←
    (if has_type (categorized inventory) BACK
     then n ← back_count inventory; Ok (items ++ ["• " +:+ py_str n +:+ "x Dos"])
     else Ok items);
  total ← total_face_cards inventory;
  Ok (items ++ [""; "Total final : " +:+ pretty (as_int total - 3)
                      +:+ " cartes physiques"]).

Definition sections : list (string * list string) :=
  [("📋 Découpe",
    ["• Papier épais (200-300g/m²), découpe carré 1:1, cutter + règle";
     "• Arrondissez les coins avec des ciseaux"]);
   ("🔗 Assemblage dos-à-dos",
    ["• 2 Capitaines → 1 carte collée dos-à-dos";
     "• 2 Plumes du corbeau → 1 carte collée dos-à-dos";
     "• 2 Villageois → 1 carte 'Villageois-Villageois'";
     "• Loups garous : cartes individuelles (pas de collage)"]);
   ("✨ Finition",
    ["• RECOMMANDÉ : Plastification 80-125 microns";
     "• 2-3mm marge avant plastification, 1mm après découpe finale"])].

(** [y_pos -= n * mm]. *)
Definition down (y_pos : float) (n : Z) : io float :=
  d ← lift (int_mul_float n mm); mret (y_pos - d)%float.

Definition _add_instructions_page (self : CardPDFGenerator)
    (inventory : CardInventory) : io unit :=
  margin_left ← lift (int_mul_float 20 mm);
  margin_right ← lift (int_mul_float 20 mm);
  y_pos ← down (page_height self) 35;
  emit (SetFont "Helvetica-Bold" 20);;
  emit (DrawString margin_left y_pos "🐺 Loup-Garou de Crénin");;
  y_pos ← down y_pos 10;
  emit (SetFont "Helvetica" 16);;
  emit (DrawString margin_left y_pos "Guide d'impression");;
  y_pos ← down y_pos 20;
  y_pos ← io_fold (λ y_pos '(title, items),
      emit (SetFont "Helvetica-Bold" 14);;
      emit (DrawString margin_left y_pos title);;
      y_pos ← down y_pos 8;
      emit (SetFont "Helvetica" 11);;
      y_pos ← io_fold (λ y_pos item,
          indent ← lift (int_mul_float 5 mm);
          emit (DrawString (margin_left + indent) y_pos item);;
          down y_pos 5) y_pos items;
      down y_pos 5) y_pos sections;
  emit (SetFont "Helvetica-Bold" 14);;
  emit (DrawString margin_left y_pos "🎲 Contenu");;
  y_pos ← down y_pos 8;
  emit (SetFont "Helvetica" 11);;
  content_items ← lift (_generate_content_summary inventory);
  y_pos ← io_fold (λ y_pos item,
      (if bool_decide (item ≠ "")
       then indent ← lift (int_mul_float 5 mm);
            emit (DrawString (margin_left + indent) y_pos item)
       else mret tt);;
      down y_pos 5) y_pos content_items;
  emit (SetFont "Helvetica-Oblique" 9);;
  y ← lift (int_mul_float 25 mm);
  emit (DrawString margin_left y "Loup-Garou de Crénin - Open source sur GitHub");;
  y ← lift (int_mul_float 15 mm);
  emit (DrawString margin_left y "Bon jeu ! 🌙").

(** ** Card pages *)

(** The grid cell of a position on a page, as [_draw_card] computes
    it. *)
Definition grid_cell (layout : LayoutConfig) (position : Z) : result (Z * Z) :=
  row ← py_floordiv position (cards_per_row layout);
  col ← py_mod position (cards_per_row layout);
  Ok (row, col).

Definition _draw_card (w : world) (self : CardPDFGenerator) (card_path : Path)
    (position : Z) (layout : LayoutConfig) : io unit :=
  '(row, col) ← lift (grid_cell layout position);
  margin ← lift (int_mul_float MARGIN mm);
  dx ← lift (int_mul_float col (card_size layout + horizontal_spacing layout)%float);
  let x := (margin + horizontal_spacing layout + dx)%float in
  margin ← lift (int_mul_float MARGIN mm);
  v_gap ← lift (int_mul_float CARD_SPACING_V mm);
  dy ← lift (int_mul_float row (card_size layout + v_gap)%float);
  let y := (page_height self - margin - card_size layout - dy)%float in
  if drawable w (path_str card_path)
  then emit (DrawImage (path_str card_path) x y (card_size layout) (card_size layout))
  else
    emit (Print [FStr ("Error drawing card " +:+ path_str card_path +:+ ": ");
                 FExc DrawingError]);;
    emit (Rect x y (card_size layout) (card_size layout));;
    five ← lift (float_of_int 5);
    half ← lift (float_div_int (card_size layout) 2);
    emit (DrawString (x + five) (y + half) ("Error: " +:+ name card_path)).

Definition _add_card_pages (w : world) (self : CardPDFGenerator)
    (cards : list Path) (layout : LayoutConfig) : io unit :=
  total_pages ← lift (py_floordiv (len cards + cards_per_page layout - 1)
                                  (cards_per_page layout));
  io_for (py_range total_pages) (λ page_num,
    (if bool_decide (0 < page_num) then emit ShowPage else mret tt);;
    let start_idx := page_num * cards_per_page layout in
    let end_idx := Z.min (start_idx + cards_per_page layout) (len cards) in
    print ("Page " +:+ pretty (page_num + 2) +:+ ": cards "
           +:+ pretty (start_idx + 1) +:+ " to " +:+ pretty end_idx);;
    io_for (py_range2 start_idx end_idx) (λ i,
      card ← lift (py_getitem cards i);
      _draw_card w self card (i - start_idx) layout)).

(** The pages as data: for each page number, the cards the inner loop
    of [_add_card_pages] passes to [_draw_card], each with its position
    on the page. *)
Definition page_cards (cards : list Path) (layout : LayoutConfig) (page_num : Z)
    : result (list (Path * Z)) :=
  let start_idx := page_num * cards_per_page layout in
  let end_idx := Z.min (start_idx + cards_per_page layout) (len cards) in
  mapM (λ i, card ← py_getitem cards i; Ok (card, i - start_idx))
       (py_range2 start_idx end_idx).

Definition card_pages (cards : list Path) (layout : LayoutConfig)
    : result (list (list (Path * Z))) :=
  total_pages ← py_floordiv (len cards + cards_per_page layout - 1)
                            (cards_per_page layout);
  mapM (page_cards cards layout) (py_range total_pages).

(** What [_add_card_pages] does with the cards of one page. *)
Definition draw_page (w : world) (self : CardPDFGenerator) (cards : list Path)
    (layout : LayoutConfig) (numbered : Z * list (Path * Z)) : io unit :=
  let '(page_num, page) := numbered in
  (if bool_decide (0 < page_num) then emit ShowPage else mret tt);;
  let start_idx := page_num * cards_per_page layout in
  let end_idx := Z.min (start_idx + cards_per_page layout) (len cards) in
  print ("Page " +:+ pretty (page_num + 2) +:+ ": cards "
         +:+ pretty (start_idx + 1) +:+ " to " +:+ pretty end_idx);;
  io_for page (λ '(card, position), _draw_card w self card position layout).

(** ** The generator and the entry point *)

Definition generate (w : world) (self : CardPDFGenerator)
    (inventory : CardInventory) : io unit :=
  cards_to_print ← lift (_prepare_card_list inventory);
  layout ← lift (_calculate_layout self);
  edge_mm ← lift (float_truediv (card_size layout) mm);
  edge_mm' ← lift (float_truediv (card_size layout) mm);
  emit (Print [FStr ("Generating " +:+ pretty (len cards_to_print) +:+ " cards (");
               FFloat0 edge_mm; FStr "x"; FFloat0 edge_mm'; FStr "mm)"]);;
  print ("Layout: " +:+ pretty (cards_per_row layout) +:+ " cards/row, "
         +:+ pretty (cards_per_col layout) +:+ " rows/page");;
  emit (NewCanvas (output_filename self));;
  _add_instructions_page self inventory;;
  emit ShowPage;;
  _add_card_pages w self cards_to_print layout;;
  save w (output_filename self);;
  print (nl +:+ "✅ PDF generated: " +:+ output_filename self).

(** The body of the [try] block of [main]. *)
Definition main_body (w : world) : io unit :=
  card_files ← lift (scan_card_files w);
  print ("Found " +:+ pretty (len card_files) +:+ " card files");;
  inventory ← lift (categorize_cards card_files);
  print (nl +:+ "Dynamic analysis:");;
  face ← lift (total_face_cards inventory);
  print ("  Face cards: " +:+ py_str face);;
  back ← lift (back_count inventory);
  print ("  Back cards: " +:+ py_str back);;
  total ← lift (total_cards inventory);
  print ("  Total: " +:+ py_str total);;
  let generator := CardPDFGenerator_init OUTPUT_FILENAME in
  generate w generator inventory.

(** [main]: the events of the run and the exit code. *)
Definition main (w : world) : list event * Z :=
  let banner := Print [FStr ("=== Werewolf Card PDF Generator ===" +:+ nl)] in
  let run := main_body w in
  match outcome run with
  | Ok _ => (banner :: trace run, 0)
  | Raise (FileNotFoundError msg) =>
      (banner :: trace run ++ [Print [FStr "Error: "; FExc (FileNotFoundError msg)]], 1)
  | Raise e =>
      (banner :: trace run ++ [Print [FStr "Unexpected error: "; FExc e]], 1)
  end.

(** ** Vocabulary of the statements *)

(** The files of a scan that carry the filename of a category, in scan
    order, and the files that carry none of the five filenames. *)
Definition matches (t : CardType) (p : Path) : Prop := name p = value t.
Definition uncategorized (p : Path) : Prop := name p ∉ value <$> CardType_members.

Global Instance matches_dec t p : Decision (matches t p).
Proof. unfold matches. apply _. Defined.
Global Instance uncategorized_dec p : Decision (uncategorized p).
Proof. unfold uncategorized. apply _. Defined.

Definition matching (t : CardType) (files : list Path) : list Path :=
  filter (matches t) files.
Definition other_files (files : list Path) : list Path :=
  filter uncategorized files.
Definition present (files : list Path) (t : CardType) : bool :=
  bool_decide (matching t files ≠ []).

(** The base quantity of a countable category. *)
Definition base_quantity (t : CardType) : Z :=
  match t with
  | VILLAGER => 6 | WEREWOLF => 4 | FEATHERS => 2 | CAPTAIN => 2 | BACK => 0
  end.

(** An integer entry of the quantities dictionary, and the keys of the
    derived integer quantities. *)
Definition quantity (inv : CardInventory) (key : string) : option Z :=
  match quantities inv !! key with
  | Some (PyInt z) => Some z
  | _ => None
  end.

Definition quantity_names : list string :=
  ["villageois_count"; "loup_garou_count"; "plumes_corbeau_count";
   "capitaine_count"; "autres_cartes"; "total_cartes_face"; "dos_count";
   "total_cartes"].

(** The key under which [_prepare_card_list] reads the count of a
    category. *)
Definition count_key (t : CardType) : string :=
  match t with
  | BACK => "dos_count"
  | _ => default "" (od_find QUANTITY_KEYS t)
  end.

(** The representative image of a category is the first path recorded
    under it; [copies inv t n] is that image [n] times over, and nothing
    when the category has no image. *)
Definition representative (inv : CardInventory) (t : CardType) : option Path :=
  categorized inv !! t ≫= head.

Definition copies (inv : CardInventory) (t : CardType) (n : Z) : list Path :=
  match representative inv t with
  | Some p => replicate (Z.to_nat n) p
  | None => []
  end.

(** An inventory whose recorded categories each hold at least one
    path. *)
Definition nonempty_categories (inv : CardInventory) : Prop :=
  ∀ t l, categorized inv !! t = Some l → l ≠ [].

(** A scan with the later files of category [t] removed, so that the
    category's filename appears at most once. *)
Fixpoint once (t : CardType) (files : list Path) : list Path :=
  match files with
  | [] => []
  | p :: rest =>
      if decide (matches t p)
      then p :: filter (λ p', ¬ matches t p') rest
      else p :: once t rest
  end.

(** The cards of page [page_num] when every page holds [capacity]
    cards: a run of consecutive cards of the list, each paired with its
    position on the page. *)
Definition page_slice (capacity : Z) (cards : list Path) (page_num : Z)
    : list (Path * Z) :=
  let c := Z.to_nat capacity in
  let slice := take c (drop (Z.to_nat page_num * c) cards) in
  zip slice (seqZ 0 (len slice)).

(** ** Sample inputs *)

Definition card (filename : string) : Path := path_child CARDS_DIR filename.

(** All five known images and three others. *)
Definition full_scan : list Path :=
  [card "Capitaine.png"; card "Dos-Cartes.png"; card "Loup Garou.png";
   card "Plumes du corbeau.png"; card "Simple Villageois.png";
   card "Sorciere.png"; card "Voyante.png"; card "Chasseur.png"].

(** Only the wolf image; only the back image. *)
Definition wolf_scan : list Path := [card "Loup Garou.png"].
Definition back_scan : list Path := [card "Dos-Cartes.png"].

(** Two files with the wolf filename, in different folders. *)
Definition duplicate_scan : list Path :=
  [card "Voyante.png"; card "Loup Garou.png";
   mkPath "" ["Archive"; "Loup Garou.png"]; card "Dos-Cartes.png"].

(** A layout with three rows of two cards and seven cards to
    paginate. *)
Definition sample_layout : LayoutConfig := mkLayoutConfig 200 2 3 20.

(** A generator whose page is A5, 148 mm by 210 mm. *)
Definition a5_generator : CardPDFGenerator :=
  mkCardPDFGenerator "a5.pdf" (148 * mm) (210 * mm).

(** The check behind the statement on pages of whole millimetres: on
    the page of [w] by [h] millimetres the layout is computed, the row
    count is the floor of the exact quotient, the card shrinks below
    80 mm just when the page is narrower than 200 mm, and it never
    exceeds 80 mm. *)
Definition whole_mm_check (w h : Z) : bool :=
  match int_mul_float w mm, int_mul_float h mm with
  | Ok pw, Ok ph =>
      match _calculate_layout (mkCardPDFGenerator "" pw ph) with
      | Ok layout =>
          match float_to_Q (ph - 30 * mm),
                float_to_Q (card_size layout + 8 * mm) with
          | Some height, Some pitch =>
              bool_decide (0 < Qnum pitch)
              && bool_decide (cards_per_col layout = Qfloor (height / pitch))
              && Bool.eqb ((pw - 30 * mm - 10 * mm) / 2 <? 80 * mm)%float
                          (bool_decide (w < 200))
              && (card_size layout <=? 80 * mm)%float
          | _, _ => false
          end
      | Raise _ => false
      end
  | _, _ => false
  end.

Definition seven_cards : list Path :=
  card <$> ["a.png"; "b.png"; "c.png"; "d.png"; "e.png"; "f.png"; "g.png"].

(** An environment with an empty cards directory, and one without the
    directory; every image can be drawn. *)
Definition empty_folder : world := mkWorld (Directory []) (λ _, true) (λ _, None).
Definition missing_folder : world := mkWorld Absent (λ _, true) (λ _, None).

(** No folder, but a regular file under the folder's name. *)
Definition file_for_folder : world := mkWorld NotADirectory (λ _, true) (λ _, None).

(** ** Further vocabulary: drawing *)

(** The lower left corner [_draw_card] computes for a position on the
    page. *)
Definition card_origin (self : CardPDFGenerator) (layout : LayoutConfig)
    (position : Z) : result (float * float) :=
  '(row, col) ← grid_cell layout position;
  margin ← int_mul_float MARGIN mm;
  dx ← int_mul_float col (card_size layout + horizontal_spacing layout)%float;
  let x := (margin + horizontal_spacing layout + dx)%float in
  margin ← int_mul_float MARGIN mm;
  v_gap ← int_mul_float CARD_SPACING_V mm;
  dy ← int_mul_float row (card_size layout + v_gap)%float;
  let y := (page_height self - margin - card_size layout - dy)%float in
  Ok (x, y).



Definition drawn_text (e : event) : option string :=
  match e with
  | DrawString _ _ s => Some s
  | _ => None
  end.

Definition is_text_event (e : event) : bool :=
  match e with
  | SetFont _ _ | DrawString _ _ _ => true
  | _ => false
  end.


(** [m] runs to the end: it produces the events [t] and returns [a]. *)
Definition runs {A} (m : io A) (t : list event) (a : A) : Prop := m = IO t (Ok a).

(** The presence flags of the quantities dictionary. *)
Definition flag_names : list string :=
  ["has_villageois"; "has_loup_garou"; "has_plumes_corbeau"; "has_capitaine";
   "has_dos"].

(** An environment whose cards directory holds the five known images,
    two other images and two files that are no images; one of the
    images cannot be drawn. *)
Definition sample_folder : world :=
  mkWorld (Directory ["Capitaine.png"; "notes.txt"; "Dos-Cartes.png";
                      "Loup Garou.png"; "Plumes du corbeau.png";
                      "Simple Villageois.png"; "Voyante.png"; "Voyante.PNG";
                      "Chasseur.png"])
          (λ image, bool_decide (image ≠ "Cartes/Voyante.png"))
          (λ _, None).

(** The same folder where the document cannot be written. *)
Definition read_only_folder : world :=
  mkWorld (cards_dir sample_folder) (drawable sample_folder)
          (λ filename, Some (PermissionError filename)).

(** An inventory built by hand: wolves recorded with a count of three,
    a count for villagers that are not recorded, no back. *)
Definition hand_inventory : CardInventory :=
  mkCardInventory
    {[ WEREWOLF := [card "Loup Garou.png"; card "Loup.png"] ]}
    [card "Voyante.png"]
    (<["villageois_count" := PyInt 5]>
     (<["loup_garou_count" := PyInt 3]>
     (<["plumes_corbeau_count" := PyInt 0]>
     (<["capitaine_count" := PyInt 0]>
     (<["dos_count" := PyInt 2]> ∅))))).

(** A hand-built inventory whose wolf category is recorded without a
    path. *)
Definition empty_wolf_inventory : CardInventory :=
  mkCardInventory {[ WEREWOLF := [] ]} [] (<["loup_garou_count" := PyInt 4]> ∅).

(** The categories in the order in which [_prepare_card_list] visits
    them. *)
Definition expansion_order : list CardType :=
  [VILLAGER; WEREWOLF; FEATHERS; CAPTAIN; BACK].

(** A category that [_prepare_card_list] passes without raising: it is
    not recorded, or its count is there and, when the count is positive,
    so is a first path. *)
Definition expands (inv : CardInventory) (t : CardType) : Prop :=
  categorized inv !! t = None
  ∨ ∃ n, quantities inv !! count_key t = Some n
         ∧ (0 < as_int n → ∃ p l, categorized inv !! t = Some (p :: l)).

(** A hand-built inventory that records villagers without a count and
    wolves without a path. *)
Definition no_count_inventory : CardInventory :=
  mkCardInventory {[ VILLAGER := [card "Simple Villageois.png"]; WEREWOLF := [] ]}
    [] (<["loup_garou_count" := PyInt 4]> ∅).



(** Two squares of edge [s] with corners [(x, y)] and [(x', y')] that do
    not overlap, and a square inside the printable area of the page. *)
Definition squares_apart (s x y x' y' : float) : bool :=
  ((x + s <=? x') || (x' + s <=? x) || (y + s <=? y') || (y' + s <=? y))%float.

Definition square_inside (self : CardPDFGenerator) (s x y : float) : bool :=
  ((15 * mm <=? x) && (x + s <=? page_width self - 15 * mm)
   && (15 * mm <=? y) && (y + s <=? page_height self - 15 * mm))%float.

(** The layout of the A4 page: cards of 80 mm, two columns, three rows. *)
Definition a4_layout : LayoutConfig :=
  mkLayoutConfig (80 * mm) 2 3 0x1.2e5cb972e5cbbp+4.



(** The summary lines as [_add_instructions_page] writes them: from
    height [y] downwards in steps of 5 mm, at abscissa [x], an empty
    line taking its step without being written. *)
Fixpoint content_lines (x y : float) (items : list string) : list event :=
  match items with
  | [] => []
  | item :: rest =>
      (if bool_decide (item ≠ "") then [DrawString x y item] else [])
      ++ content_lines x (y - 5 * mm)%float rest
  end.

(** A hand-built inventory with what the summary reads. *)
Definition hand_summary_inventory : CardInventory :=
  mkCardInventory
    {[ WEREWOLF := [card "Loup Garou.png"] ]} []
    (<["loup_garou_count" := PyInt 3]>
     (<["autres_cartes" := PyInt 0]>
     (<["total_cartes_face" := PyInt 4]> ∅))).

(** The events that open or close the document. *)
Definition opens_or_closes (e : event) : bool :=
  match e with
  | NewCanvas _ | Save => true
  | _ => false
  end.


(** * Properties *)

(** ** Categorization *)

Lemma type_mapping_lookup (s : string) (t : CardType) :
  type_mapping !! s = Some t ↔ s = value t.
Proof.
  unfold type_mapping, CardType_members. cbn [foldl value].
  rewrite !lookup_insert, lookup_empty.
  repeat case_decide; subst; destruct t; cbn [value]; split; congruence.
Qed.

Lemma type_mapping_none (p : Path) :
  type_mapping !! name p = None ↔ uncategorized p.
Proof.
  unfold uncategorized. rewrite list_elem_of_fmap. split.
  - intros Hnone (t & Hname & _). apply type_mapping_lookup in Hname. congruence.
  - intros Hnot. destruct (type_mapping !! name p) as [t|] eqn:E; [|done].
    apply type_mapping_lookup in E. destruct Hnot. exists t. split; [done|].
    unfold CardType_members. destruct t; set_solver.
Qed.

Lemma value_inj (t t' : CardType) : value t = value t' → t = t'.
Proof. destruct t, t'; cbn [value]; congruence. Qed.

Lemma uncategorized_not_matches (p : Path) (t : CardType) :
  uncategorized p → ¬ matches t p.
Proof.
  intros Hun Hm. apply type_mapping_none in Hun.
  apply type_mapping_lookup in Hm. congruence.
Qed.

Lemma matching_snoc (t : CardType) (files : list Path) (p : Path) :
  matching t (files ++ [p]) =
  matching t files ++ (if decide (matches t p) then [p] else []).
Proof.
  unfold matching. by rewrite filter_app.
Qed.

Lemma other_files_snoc (files : list Path) (p : Path) :
  other_files (files ++ [p]) =
  other_files files ++ (if decide (uncategorized p) then [p] else []).
Proof.
  unfold other_files. by rewrite filter_app.
Qed.

(** The categorizing loop files every path under the category whose
    filename it carries, in scan order, and the rest under [others]. *)
Lemma categorize_fold (files : list Path) :
  let st := foldl categorize_step (∅, []) files in
  (∀ t, st.1 !! t =
        if decide (matching t files = []) then None else Some (matching t files))
  ∧ st.2 = other_files files.
Proof.
  induction files as [|p files IH] using rev_ind; cbn zeta.
  - split; [|done]. intros t. cbn [foldl fst]. by rewrite lookup_empty.
  - rewrite foldl_app. cbn [foldl]. cbn zeta in IH.
    destruct (foldl categorize_step (∅, []) files) as [cat oth].
    destruct IH as [IHcat IHoth]. cbn [fst snd] in *. subst oth.
    unfold categorize_step.
    destruct (type_mapping !! name p) as [t0|] eqn:E; cbn [fst snd].
    + apply type_mapping_lookup in E. split.
      * intros t. rewrite matching_snoc. destruct (decide (t0 = t)) as [->|Hne].
        -- rewrite lookup_insert_eq, IHcat.
           rewrite (decide_True (P := matches t p)) by exact E.
           destruct (decide (matching t files = [])) as [->|]; cbn [default].
           ++ by rewrite decide_False.
           ++ rewrite decide_False; [done|].
              by destruct (matching t files).
        -- rewrite lookup_insert_ne by done. rewrite IHcat.
           rewrite (decide_False (P := matches t p)); [by rewrite app_nil_r|].
           unfold matches. rewrite E. intros Hv. by apply value_inj in Hv.
      * rewrite other_files_snoc, (decide_False (P := uncategorized p));
          [by rewrite app_nil_r|].
        rewrite <- type_mapping_none.
        assert (type_mapping !! name p = Some t0) as -> by by apply type_mapping_lookup.
        done.
    + apply type_mapping_none in E. split.
      * intros t.
        rewrite matching_snoc, (decide_False (P := matches t p)), app_nil_r; [done|].
        by apply uncategorized_not_matches.
      * by rewrite other_files_snoc, (decide_True (P := uncategorized p)).
Qed.

Lemma has_type_categorized (files : list Path) (t : CardType) :
  has_type (foldl categorize_step (∅, []) files).1 t = present files t.
Proof.
  unfold has_type, present. destruct (categorize_fold files) as [-> _].
  case_decide as Hm.
  - rewrite bool_decide_eq_false_2 by (by intros [? ?]).
    by rewrite bool_decide_eq_false_2 by (by intros ?).
  - rewrite bool_decide_eq_true_2 by done. by rewrite bool_decide_eq_true_2.
Qed.

(** ** Quantities *)

(** Lookups in a dictionary built by a chain of assignments to literal
    keys. *)
Ltac lookup_literal :=
  repeat first
    [ rewrite lookup_insert_eq
    | rewrite lookup_insert_ne by (intros ?; congruence)
    | rewrite lookup_empty ].

(** The dictionary [_calculate_quantities] returns, assignment by
    assignment. *)
Lemma calculate_quantities_eq (cat : gmap CardType (list Path)) (oth : list Path) :
  let n t := if has_type cat t then base_quantity t else 0 in
  let face := len oth + (0 + n VILLAGER + n WEREWOLF + n FEATHERS + n CAPTAIN) in
  let dos := if has_type cat BACK then Z.max 0 (face - 6) else 0 in
  _calculate_quantities cat oth =
  Ok (<["has_dos" := PyBool (has_type cat BACK)]>
      (<["has_capitaine" := PyBool (has_type cat CAPTAIN)]>
      (<["has_plumes_corbeau" := PyBool (has_type cat FEATHERS)]>
      (<["has_loup_garou" := PyBool (has_type cat WEREWOLF)]>
      (<["has_villageois" := PyBool (has_type cat VILLAGER)]>
      (<["total_cartes" := PyInt (face + dos)]>
      (<["dos_count" := PyInt dos]>
      (<["total_cartes_face" := PyInt face]>
      (<["autres_cartes" := PyInt (len oth)]>
      (<["capitaine_count" := PyInt (n CAPTAIN)]>
      (<["plumes_corbeau_count" := PyInt (n FEATHERS)]>
      (<["loup_garou_count" := PyInt (n WEREWOLF)]>
      (<["villageois_count" := PyInt (n VILLAGER)]> ∅))))))))))))).
Proof.
  intros n face dos. unfold _calculate_quantities.
  change (base_quantities cat (od_items CARD_QUANTITIES) ∅) with
    (Ok (<["capitaine_count" := PyInt (n CAPTAIN)]>
         (<["plumes_corbeau_count" := PyInt (n FEATHERS)]>
         (<["loup_garou_count" := PyInt (n WEREWOLF)]>
         (<["villageois_count" := PyInt (n VILLAGER)]> (∅ : gmap string pyval)))))).
  cbn [mbind result_bind].
  unfold sum_quantities, QUANTITY_KEYS, od_values. cbn [fmap list_fmap snd foldl].
  lookup_literal. cbn [default as_int]. fold face.
  unfold dict_getitem. lookup_literal. cbn [as_int]. fold dos.
  reflexivity.
Qed.

(** The entries of the dictionary, key by key. *)
Lemma calculate_quantities_lookup (cat : gmap CardType (list Path))
    (oth : list Path) (q : gmap string pyval) :
  _calculate_quantities cat oth = Ok q →
  let n t := if has_type cat t then base_quantity t else 0 in
  let face := len oth + (n VILLAGER + n WEREWOLF + n FEATHERS + n CAPTAIN) in
  let dos := if has_type cat BACK then Z.max 0 (face - 6) else 0 in
  q !! "villageois_count" = Some (PyInt (n VILLAGER))
  ∧ q !! "loup_garou_count" = Some (PyInt (n WEREWOLF))
  ∧ q !! "plumes_corbeau_count" = Some (PyInt (n FEATHERS))
  ∧ q !! "capitaine_count" = Some (PyInt (n CAPTAIN))
  ∧ q !! "autres_cartes" = Some (PyInt (len oth))
  ∧ q !! "total_cartes_face" = Some (PyInt face)
  ∧ q !! "dos_count" = Some (PyInt dos)
  ∧ q !! "total_cartes" = Some (PyInt (face + dos)).
Proof.
  rewrite calculate_quantities_eq. intros [= <-]. cbn zeta.
  replace (len oth +
           (0 + (if has_type cat VILLAGER then base_quantity VILLAGER else 0)
            + (if has_type cat WEREWOLF then base_quantity WEREWOLF else 0)
            + (if has_type cat FEATHERS then base_quantity FEATHERS else 0)
            + (if has_type cat CAPTAIN then base_quantity CAPTAIN else 0)))
    with (len oth +
          ((if has_type cat VILLAGER then base_quantity VILLAGER else 0)
           + (if has_type cat WEREWOLF then base_quantity WEREWOLF else 0)
           + (if has_type cat FEATHERS then base_quantity FEATHERS else 0)
           + (if has_type cat CAPTAIN then base_quantity CAPTAIN else 0))) by lia.
  repeat split; by lookup_literal.
Qed.

(** The dictionary depends on the categorization only through which
    categories are present and how many other files there are. *)
Lemma calculate_quantities_ext (cat cat' : gmap CardType (list Path))
    (oth oth' : list Path) :
  (∀ t, has_type cat t = has_type cat' t) → length oth = length oth' →
  _calculate_quantities cat oth = _calculate_quantities cat' oth'.
Proof.
  intros Hhas Hlen. rewrite !calculate_quantities_eq. cbn zeta.
  unfold len. rewrite Hlen, !Hhas. reflexivity.
Qed.

Lemma present_iff (files : list Path) (t : CardType) :
  present files t = true ↔ ∃ p, p ∈ files ∧ name p = value t.
Proof.
  unfold present, matching. rewrite bool_decide_eq_true. split.
  - intros Hne. destruct (filter (matches t) files) as [|p l] eqn:E; [done|].
    assert (p ∈ filter (matches t) files) as Hp by (rewrite E; left).
    apply list_elem_of_filter in Hp as [Hm Hin]. by exists p.
  - intros (p & Hin & Hname) Hnil.
    assert (p ∈ filter (matches t) files) as Hp by by apply list_elem_of_filter.
    rewrite Hnil in Hp. by apply not_elem_of_nil in Hp.
Qed.

(** What [categorize_cards] returns for a scan. *)
Lemma categorize_cards_ok (files : list Path) :
  ∃ inv,
    categorize_cards files = Ok inv
    ∧ (∀ t, categorized inv !! t =
            if decide (matching t files = []) then None else Some (matching t files))
    ∧ (∀ t, has_type (categorized inv) t = present files t)
    ∧ others inv = other_files files
    ∧ _calculate_quantities (categorized inv) (others inv) = Ok (quantities inv).
Proof.
  unfold categorize_cards.
  pose proof (categorize_fold files) as [Hcat Hoth].
  pose proof (has_type_categorized files) as Hhas.
  destruct (foldl categorize_step (∅, []) files) as [cat oth].
  cbn [fst snd] in *.
  destruct (_calculate_quantities cat oth) as [q|e] eqn:Hq.
  - exists (mkCardInventory cat oth q). cbn. by repeat split.
  - rewrite calculate_quantities_eq in Hq. discriminate.
Qed.

Lemma accessor_lookup (cat : gmap CardType (list Path)) (oth : list Path)
    (q : gmap string pyval) (key : string) (v : pyval) :
  q !! key = Some v → dict_getitem (quantities (mkCardInventory cat oth q)) key = Ok v.
Proof. intros H. unfold dict_getitem. cbn [quantities]. by rewrite H. Qed.

(** C1. Whatever the categorization, [_calculate_quantities] returns a
    dictionary in which the back count is [max(0, total_face_cards - 6)]
    when the back image was categorized and 0 otherwise, and the total
    is the face total plus that back count.  In particular a scan with
    all five known images and three other images gives 17 face cards,
    11 backs and 28 cards. *)
Theorem back_count_rule :
  (∀ (cat : gmap CardType (list Path)) (oth : list Path),
     ∃ q face back,
       _calculate_quantities cat oth = Ok q
       ∧ total_face_cards (mkCardInventory cat oth q) = Ok (PyInt face)
       ∧ back_count (mkCardInventory cat oth q) = Ok (PyInt back)
       ∧ back = (if has_type cat BACK then Z.max 0 (face - 6) else 0)
       ∧ total_cards (mkCardInventory cat oth q) = Ok (PyInt (face + back)))
  ∧ (∀ files : list Path,
       (∀ t, present files t = true) →
       length (other_files files) = 3%nat →
       ∃ inv,
         categorize_cards files = Ok inv
         ∧ total_face_cards inv = Ok (PyInt 17)
         ∧ back_count inv = Ok (PyInt 11)
         ∧ total_cards inv = Ok (PyInt 28)).
Proof.
  split.
  - intros cat oth.
    destruct (_calculate_quantities cat oth) as [q|e] eqn:Hq;
      [|by rewrite calculate_quantities_eq in Hq].
    pose proof (calculate_quantities_lookup _ _ _ Hq) as H. cbn zeta in H.
    destruct H as (_ & _ & _ & _ & _ & Hface & Hdos & Htotal).
    eexists q, _, _. split; [done|].
    unfold total_face_cards, back_count, total_cards.
    rewrite (accessor_lookup _ _ _ _ _ Hface), (accessor_lookup _ _ _ _ _ Hdos),
      (accessor_lookup _ _ _ _ _ Htotal).
    repeat split.
  - intros files Hall Hoth.
    destruct (categorize_cards_ok files) as (inv & Hinv & _ & Hhas & Hothers & Hq).
    exists inv. split; [done|].
    pose proof (calculate_quantities_lookup _ _ _ Hq) as H. cbn zeta in H.
    rewrite !Hhas, !Hall, Hothers in H. unfold len in H. rewrite Hoth in H.
    destruct H as (_ & _ & _ & _ & _ & Hface & Hdos & Htotal).
    unfold total_face_cards, back_count, total_cards, dict_getitem.
    rewrite Hface, Hdos, Htotal. by repeat split.
Qed.

Lemma back_count_rule_witness :
  (∀ t, present full_scan t = true)
  ∧ length (other_files full_scan) = 3%nat
  ∧ ∃ inv,
      categorize_cards full_scan = Ok inv
      ∧ total_face_cards inv = Ok (PyInt 17)
      ∧ back_count inv = Ok (PyInt 11)
      ∧ total_cards inv = Ok (PyInt 28).
Proof.
  assert (∀ t, present full_scan t = true) as Hall
    by (intros []; vm_compute; reflexivity).
  assert (length (other_files full_scan) = 3%nat) as Hoth
    by (vm_compute; reflexivity).
  split; [exact Hall|]. split; [exact Hoth|].
  exact (proj2 back_count_rule full_scan Hall Hoth).
Defined.

(** C2. Each countable category gets its base quantity (6, 4, 2, 2 for
    villager, wolf, feathers, captain) exactly when a file carrying its
    filename is in the scan, and 0 otherwise; every other file counts
    once; the face total is the sum of the four counts and the number
    of other files.  In particular a scan with only the wolf image
    gives 0 villagers, 4 wolves, 4 face cards and no backs. *)
Theorem category_quantities :
  (∀ files : list Path,
     ∃ inv,
       categorize_cards files = Ok inv
       ∧ (∀ t, present files t = true ↔ ∃ p, p ∈ files ∧ name p = value t)
       ∧ quantity inv "villageois_count"
         = Some (if present files VILLAGER then 6 else 0)
       ∧ quantity inv "loup_garou_count"
         = Some (if present files WEREWOLF then 4 else 0)
       ∧ quantity inv "plumes_corbeau_count"
         = Some (if present files FEATHERS then 2 else 0)
       ∧ quantity inv "capitaine_count"
         = Some (if present files CAPTAIN then 2 else 0)
       ∧ others inv = other_files files
       ∧ quantity inv "autres_cartes" = Some (len (other_files files))
       ∧ total_face_cards inv
         = Ok (PyInt ((if present files VILLAGER then 6 else 0)
                      + (if present files WEREWOLF then 4 else 0)
                      + (if present files FEATHERS then 2 else 0)
                      + (if present files CAPTAIN then 2 else 0)
                      + len (other_files files))))
  ∧ (∀ p : Path,
       name p = value WEREWOLF →
       ∃ inv,
         categorize_cards [p] = Ok inv
         ∧ quantity inv "villageois_count" = Some 0
         ∧ quantity inv "loup_garou_count" = Some 4
         ∧ total_face_cards inv = Ok (PyInt 4)
         ∧ back_count inv = Ok (PyInt 0)).
Proof.
  split.
  - intros files.
    destruct (categorize_cards_ok files) as (inv & Hinv & _ & Hhas & Hothers & Hq).
    exists inv. split; [done|].
    pose proof (calculate_quantities_lookup _ _ _ Hq) as H. cbn zeta in H.
    rewrite !Hhas, Hothers in H. cbn [base_quantity] in H.
    destruct H as (Hv & Hw & Hf & Hc & Ho & Hface & _ & _).
    split; [apply present_iff|].
    unfold quantity, total_face_cards, dict_getitem.
    rewrite Hv, Hw, Hf, Hc, Ho, Hface.
    repeat split; try done. do 2 f_equal. lia.
  - intros p Hname.
    destruct (categorize_cards_ok [p]) as (inv & Hinv & _ & Hhas & Hothers & Hq).
    exists inv. split; [done|].
    pose proof (calculate_quantities_lookup _ _ _ Hq) as H. cbn zeta in H.
    rewrite !Hhas, Hothers in H.
    assert (∀ t, present [p] t = bool_decide (t = WEREWOLF)) as Hp.
    { intros t. unfold present, matching. apply bool_decide_ext.
      destruct (decide (t = WEREWOLF)) as [->|Hne].
      - by rewrite filter_cons_True.
      - rewrite filter_cons_False; [done|].
        unfold matches. rewrite Hname. intros Hv. by apply value_inj in Hv. }
    assert (other_files [p] = []) as Ho.
    { unfold other_files. rewrite filter_cons_False; [done|].
      intros Hun. by apply (uncategorized_not_matches p WEREWOLF). }
    rewrite !Hp, Ho in H. cbn in H.
    destruct H as (Hv & Hw & _ & _ & _ & Hface & Hdos & _).
    unfold quantity, total_face_cards, back_count, dict_getitem.
    by rewrite Hv, Hw, Hface, Hdos.
Qed.

Lemma category_quantities_witness :
  name (card "Loup Garou.png") = value WEREWOLF
  ∧ ∃ inv,
      categorize_cards wolf_scan = Ok inv
      ∧ quantity inv "villageois_count" = Some 0
      ∧ quantity inv "loup_garou_count" = Some 4
      ∧ total_face_cards inv = Ok (PyInt 4)
      ∧ back_count inv = Ok (PyInt 0).
Proof.
  split; [reflexivity|].
  exact (proj2 category_quantities (card "Loup Garou.png") eq_refl).
Defined.

(** ** The card list *)

Lemma result_fold_cons {A S} (body : S → A → result S) (s : S) (x : A) (l : list A) :
  result_fold body s (x :: l) = (s' ← body s x; result_fold body s' l).
Proof. reflexivity. Qed.

Lemma getitem_first (inv : CardInventory) (t : CardType) (l : list Path) :
  categorized inv !! t = Some l → l ≠ [] →
  ∃ p, representative inv t = Some p
       ∧ ∀ B (k : Path → result B),
           (paths ← cat_getitem (categorized inv) t;
            first ← py_getitem paths 0; k first) = k p.
Proof.
  intros Hl Hne. destruct l as [|p l]; [done|]. exists p.
  unfold representative, cat_getitem. rewrite Hl. split; reflexivity.
Qed.

Lemma copies_present (inv : CardInventory) (t : CardType) (n : Z) (p : Path) :
  representative inv t = Some p → copies inv t n = py_repeat p n.
Proof. intros H. unfold copies. by rewrite H. Qed.

Lemma copies_absent (inv : CardInventory) (t : CardType) (n : Z) :
  has_type (categorized inv) t = false → copies inv t n = [].
Proof.
  unfold has_type, copies, representative. intros H%bool_decide_eq_false.
  destruct (categorized inv !! t) as [l|] eqn:E; [|done].
  destruct H. by eexists.
Qed.

Lemma copies_nonpositive (inv : CardInventory) (t : CardType) (n : Z) :
  n ≤ 0 → copies inv t n = [].
Proof.
  intros Hn. unfold copies. destruct (representative inv t); [|done].
  by replace (Z.to_nat n) with 0%nat by lia.
Qed.

(** One countable category: its representative, as many times as its
    count says. *)
Lemma extend_with_type_eq (inv : CardInventory) (cards : list Path)
    (t : CardType) (key : string) (v : pyval) :
  nonempty_categories inv →
  od_find QUANTITY_KEYS t = Some key → key ≠ "" →
  quantities inv !! key = Some v →
  extend_with_type inv cards t = Ok (cards ++ copies inv t (as_int v)).
Proof.
  intros Hwf Hkey Hne Hv. unfold extend_with_type. rewrite Hkey.
  rewrite bool_decide_eq_true_2 by done. cbn [andb].
  destruct (has_type (categorized inv) t) eqn:Hhas.
  - unfold dict_getitem. rewrite Hv. cbn [mbind result_bind].
    case_bool_decide as Hpos.
    + apply bool_decide_eq_true in Hhas as [l Hl].
      destruct (getitem_first inv t l Hl (Hwf _ _ Hl)) as (p & Hrep & ->).
      by rewrite (copies_present inv t _ p Hrep).
    + rewrite copies_nonpositive by lia. by rewrite app_nil_r.
  - rewrite copies_absent by done. by rewrite app_nil_r.
Qed.

(** The card list of an inventory whose counts are all recorded. *)
Lemma prepare_card_list_eq (inv : CardInventory) (nv nw nf nc nb : pyval) :
  nonempty_categories inv →
  quantities inv !! "villageois_count" = Some nv →
  quantities inv !! "loup_garou_count" = Some nw →
  quantities inv !! "plumes_corbeau_count" = Some nf →
  quantities inv !! "capitaine_count" = Some nc →
  quantities inv !! "dos_count" = Some nb →
  _prepare_card_list inv =
  Ok (copies inv VILLAGER (as_int nv) ++ copies inv WEREWOLF (as_int nw)
      ++ copies inv FEATHERS (as_int nf) ++ copies inv CAPTAIN (as_int nc)
      ++ others inv ++ copies inv BACK (as_int nb)).
Proof.
  intros Hwf Hv Hw Hf Hc Hb. unfold _prepare_card_list.
  rewrite result_fold_cons, (extend_with_type_eq inv _ VILLAGER _ nv) by done.
  cbn [mbind result_bind].
  rewrite result_fold_cons, (extend_with_type_eq inv _ WEREWOLF _ nw) by done.
  cbn [mbind result_bind].
  rewrite result_fold_cons, (extend_with_type_eq inv _ FEATHERS _ nf) by done.
  cbn [mbind result_bind].
  rewrite result_fold_cons, (extend_with_type_eq inv _ CAPTAIN _ nc) by done.
  cbn [mbind result_bind result_fold]. cbn [app].
  destruct (has_type (categorized inv) BACK) eqn:Hhas.
  - unfold back_count, dict_getitem. rewrite Hb. cbn [mbind result_bind].
    case_bool_decide as Hpos.
    + apply bool_decide_eq_true in Hhas as [l Hl].
      destruct (getitem_first inv BACK l Hl (Hwf _ _ Hl)) as (p & Hrep & ->).
      rewrite (copies_present inv BACK _ p Hrep).
      by rewrite <- !app_assoc.
    + rewrite (copies_nonpositive inv BACK) by lia.
      by rewrite app_nil_r, <- !app_assoc.
  - rewrite (copies_absent inv BACK) by done.
    by rewrite app_nil_r, <- !app_assoc.
Qed.

Lemma categorized_nonempty (files : list Path) (inv : CardInventory) :
  categorize_cards files = Ok inv → nonempty_categories inv.
Proof.
  intros Hinv. destruct (categorize_cards_ok files) as (inv' & Hinv' & Hcat & _).
  assert (inv' = inv) as -> by congruence.
  intros t l. rewrite Hcat. case_decide; congruence.
Qed.

Lemma copies_length (inv : CardInventory) (t : CardType) (n : Z) :
  nonempty_categories inv →
  (has_type (categorized inv) t = false → n = 0) →
  length (copies inv t n) = Z.to_nat n.
Proof.
  intros Hwf Habs. destruct (has_type (categorized inv) t) eqn:Hhas.
  - apply bool_decide_eq_true in Hhas as [l Hl].
    destruct (getitem_first inv t l Hl (Hwf _ _ Hl)) as (p & Hrep & _).
    rewrite (copies_present inv t n p Hrep). apply length_replicate.
  - rewrite copies_absent by done. by rewrite Habs.
Qed.

(** Everything the later statements need about the inventory of a scan:
    its counts, and its card list block by block. *)
Lemma card_list_of_scan (files : list Path) :
  let n t := if present files t then base_quantity t else 0 in
  let face := len (other_files files)
              + (n VILLAGER + n WEREWOLF + n FEATHERS + n CAPTAIN) in
  let dos := if present files BACK then Z.max 0 (face - 6) else 0 in
  ∃ inv,
    categorize_cards files = Ok inv
    ∧ nonempty_categories inv
    ∧ (∀ t, has_type (categorized inv) t = present files t)
    ∧ (quantities inv !! "villageois_count" = Some (PyInt (n VILLAGER))
       ∧ quantities inv !! "loup_garou_count" = Some (PyInt (n WEREWOLF))
       ∧ quantities inv !! "plumes_corbeau_count" = Some (PyInt (n FEATHERS))
       ∧ quantities inv !! "capitaine_count" = Some (PyInt (n CAPTAIN))
       ∧ quantities inv !! "autres_cartes" = Some (PyInt (len (other_files files)))
       ∧ quantities inv !! "total_cartes_face" = Some (PyInt face)
       ∧ quantities inv !! "dos_count" = Some (PyInt dos)
       ∧ quantities inv !! "total_cartes" = Some (PyInt (face + dos)))
    ∧ _prepare_card_list inv =
      Ok (copies inv VILLAGER (n VILLAGER) ++ copies inv WEREWOLF (n WEREWOLF)
          ++ copies inv FEATHERS (n FEATHERS) ++ copies inv CAPTAIN (n CAPTAIN)
          ++ other_files files ++ copies inv BACK dos).
Proof.
  intros n face dos.
  destruct (categorize_cards_ok files) as (inv & Hinv & _ & Hhas & Hothers & Hq).
  exists inv. split; [done|].
  pose proof (categorized_nonempty files inv Hinv) as Hwf.
  split; [done|]. split; [done|].
  pose proof (calculate_quantities_lookup _ _ _ Hq) as H. cbn zeta in H.
  rewrite !Hhas, Hothers in H. fold (n VILLAGER) (n WEREWOLF) (n FEATHERS) (n CAPTAIN) in H.
  fold face in H. fold dos in H. split; [exact H|].
  destruct H as (Hv & Hw & Hf & Hc & _ & _ & Hb & _).
  rewrite (prepare_card_list_eq inv _ _ _ _ _ Hwf Hv Hw Hf Hc Hb).
  by rewrite Hothers.
Qed.

(** C4. The card list of a scan's inventory is, in this order: the
    villager, wolf, feathers and captain representatives, each repeated
    by its computed count, then the other files once each in scan order,
    then the back image repeated by the back count. *)
Theorem card_list_order (files : list Path) :
  ∃ inv nv nw nf nc nb,
    categorize_cards files = Ok inv
    ∧ quantity inv "villageois_count" = Some nv
    ∧ quantity inv "loup_garou_count" = Some nw
    ∧ quantity inv "plumes_corbeau_count" = Some nf
    ∧ quantity inv "capitaine_count" = Some nc
    ∧ quantity inv "dos_count" = Some nb
    ∧ _prepare_card_list inv =
      Ok (copies inv VILLAGER nv ++ copies inv WEREWOLF nw
          ++ copies inv FEATHERS nf ++ copies inv CAPTAIN nc
          ++ other_files files ++ copies inv BACK nb)
    ∧ length (copies inv VILLAGER nv) = Z.to_nat nv
    ∧ length (copies inv WEREWOLF nw) = Z.to_nat nw
    ∧ length (copies inv FEATHERS nf) = Z.to_nat nf
    ∧ length (copies inv CAPTAIN nc) = Z.to_nat nc
    ∧ length (copies inv BACK nb) = Z.to_nat nb.
Proof.
  destruct (card_list_of_scan files) as (inv & Hinv & Hwf & Hhas & Hq & Hlist).
  cbn zeta in Hq, Hlist.
  destruct Hq as (Hv & Hw & Hf & Hc & _ & _ & Hb & _).
  eexists inv, _, _, _, _, _. split; [done|].
  unfold quantity. rewrite Hv, Hw, Hf, Hc, Hb.
  do 5 (split; [reflexivity|]). split; [exact Hlist|].
  repeat split; apply copies_length; try done;
    rewrite Hhas; by intros ->.
Qed.

(** C9. The card list of a scan's inventory has exactly [total_cards]
    entries, the face total plus the back count. *)
Theorem card_list_length (files : list Path) :
  ∃ inv cards face back,
    categorize_cards files = Ok inv
    ∧ _prepare_card_list inv = Ok cards
    ∧ total_face_cards inv = Ok (PyInt face)
    ∧ back_count inv = Ok (PyInt back)
    ∧ total_cards inv = Ok (PyInt (face + back))
    ∧ len cards = face + back.
Proof.
  destruct (card_list_of_scan files) as (inv & Hinv & Hwf & Hhas & Hq & Hlist).
  cbn zeta in Hq, Hlist.
  destruct Hq as (_ & _ & _ & _ & _ & Hface & Hb & Htotal).
  eexists inv, _, _, _. split; [done|]. split; [exact Hlist|].
  unfold total_face_cards, back_count, total_cards, dict_getitem.
  rewrite Hface, Hb, Htotal. do 3 (split; [reflexivity|]).
  unfold len. rewrite !length_app.
  rewrite !copies_length by (try done; rewrite Hhas; by intros ->).
  destruct (present files VILLAGER), (present files WEREWOLF),
    (present files FEATHERS), (present files CAPTAIN), (present files BACK);
    cbn [base_quantity]; lia.
Qed.

(** ** Several files for one category *)

Lemma filter_head_split {A} (P : A → Prop) `{∀ x, Decision (P x)}
    (l : list A) (x : A) (r : list A) :
  filter P l = x :: r →
  ∃ l1 l2, l = l1 ++ x :: l2 ∧ P x ∧ Forall (λ y, ¬ P y) l1 ∧ r = filter P l2.
Proof.
  induction l as [|y l IH]; [done|].
  destruct (decide (P y)) as [Hy|Hy].
  - rewrite filter_cons_True by done. intros [= -> <-].
    by exists [], l.
  - rewrite filter_cons_False by done. intros Hf.
    destruct (IH Hf) as (l1 & l2 & -> & Hx & Hl1 & Hr).
    exists (y :: l1), l2. repeat split; try done. by constructor.
Qed.

Lemma once_split (t : CardType) (before after : list Path) (first : Path) :
  Forall (λ p, ¬ matches t p) before → matches t first →
  once t (before ++ first :: after)
  = before ++ first :: filter (λ p, ¬ matches t p) after.
Proof.
  intros Hb Hf. induction Hb as [|p before Hp Hb IH]; cbn [once app].
  - by rewrite decide_True.
  - rewrite decide_False by done. by rewrite IH.
Qed.

Lemma matching_none (t : CardType) (l : list Path) :
  Forall (λ p, ¬ matches t p) l → matching t l = [].
Proof.
  intros Hl. unfold matching. induction Hl as [|p l Hp Hl IH]; [done|].
  by rewrite filter_cons_False.
Qed.

Lemma matching_filter_other (t t' : CardType) (l : list Path) :
  t' ≠ t → matching t' (filter (λ p, ¬ matches t p) l) = matching t' l.
Proof.
  intros Hne. unfold matching. induction l as [|p l IH]; [done|].
  destruct (decide (matches t p)) as [Hp|Hp].
  - rewrite (filter_cons_False (λ p, ¬ matches t p)) by tauto.
    rewrite (filter_cons_False (matches t')); [done|].
    unfold matches in *. rewrite Hp. intros Hv. by apply value_inj in Hv.
  - rewrite (filter_cons_True (λ p, ¬ matches t p)) by done.
    destruct (decide (matches t' p)).
    + rewrite !(filter_cons_True (matches t')) by done. by rewrite IH.
    + by rewrite !(filter_cons_False (matches t')).
Qed.

Lemma other_files_filter (t : CardType) (l : list Path) :
  other_files (filter (λ p, ¬ matches t p) l) = other_files l.
Proof.
  unfold other_files. induction l as [|p l IH]; [done|].
  destruct (decide (matches t p)) as [Hp|Hp].
  - rewrite (filter_cons_False (λ p, ¬ matches t p)) by tauto.
    rewrite (filter_cons_False uncategorized); [done|].
    intros Hun. by apply (uncategorized_not_matches p t).
  - rewrite (filter_cons_True (λ p, ¬ matches t p)) by done.
    destruct (decide (uncategorized p)).
    + rewrite !(filter_cons_True uncategorized) by done. by rewrite IH.
    + by rewrite !(filter_cons_False uncategorized).
Qed.

Lemma matching_app (t : CardType) (l l' : list Path) :
  matching t (l ++ l') = matching t l ++ matching t l'.
Proof. unfold matching. apply filter_app. Qed.

Lemma other_files_app (l l' : list Path) :
  other_files (l ++ l') = other_files l ++ other_files l'.
Proof. unfold other_files. apply filter_app. Qed.

Lemma matching_cons (t : CardType) (p : Path) (l : list Path) :
  matching t (p :: l) = if decide (matches t p) then p :: matching t l else matching t l.
Proof. reflexivity. Qed.

Lemma other_files_cons (p : Path) (l : list Path) :
  other_files (p :: l)
  = if decide (uncategorized p) then p :: other_files l else other_files l.
Proof. reflexivity. Qed.

(** Dropping the later files of a category leaves the presence of every
    category and the other files as they were. *)
Lemma once_preserves (t : CardType) (before after : list Path) (first : Path) :
  Forall (λ p, ¬ matches t p) before → matches t first →
  let files := before ++ first :: after in
  matching t (once t files) = [first]
  ∧ (∀ t', t' ≠ t → matching t' (once t files) = matching t' files)
  ∧ other_files (once t files) = other_files files.
Proof.
  intros Hb Hf files. unfold files. rewrite (once_split t before after first Hb Hf).
  repeat split.
  - rewrite matching_app, matching_cons, decide_True by done.
    rewrite (matching_none t before Hb). cbn [app]. f_equal.
    apply matching_none. apply Forall_forall. intros p Hp.
    by apply list_elem_of_filter in Hp as [? _].
  - intros t' Hne. rewrite !matching_app, !matching_cons.
    by rewrite matching_filter_other.
  - rewrite !other_files_app, !other_files_cons. by rewrite other_files_filter.
Qed.

Lemma copies_elem (inv : CardInventory) (t : CardType) (n : Z) (p : Path) :
  p ∈ copies inv t n → representative inv t = Some p.
Proof.
  unfold copies. destruct (representative inv t) as [p'|]; [|by intros ?%not_elem_of_nil].
  by intros [-> _]%elem_of_replicate.
Qed.

(** C10. When two or more paths of the input carry the filename of one
    category, categorization succeeds and records all of them under the
    category in input order.  The first of them is the image that is
    printed: the card list is a run of copies of that first path, as
    many as the category's count (the base quantity, for a countable
    category), between cards that do not carry the category's filename;
    no later path of the category is printed.  The quantities are those
    of the input with the later ones removed. *)
Theorem duplicate_category_files (files : list Path) (t : CardType) :
  (2 ≤ length (matching t files))%nat →
  ∃ inv first before after cards n prefix suffix,
    categorize_cards files = Ok inv
    ∧ categorized inv !! t = Some (matching t files)
    ∧ files = before ++ first :: after
    ∧ matches t first
    ∧ Forall (λ p, ¬ matches t p) before
    ∧ representative inv t = Some first
    ∧ (∀ n, copies inv t n = py_repeat first n)
    ∧ _prepare_card_list inv = Ok cards
    ∧ quantity inv (count_key t) = Some n
    ∧ (t ≠ BACK → n = base_quantity t ∧ 0 < n)
    ∧ cards = prefix ++ replicate (Z.to_nat n) first ++ suffix
    ∧ Forall (λ p, ¬ matches t p) prefix
    ∧ Forall (λ p, ¬ matches t p) suffix
    ∧ (∀ p, p ∈ cards → matches t p → p = first)
    ∧ matching t (once t files) = [first]
    ∧ ∃ inv1,
        categorize_cards (once t files) = Ok inv1
        ∧ quantities inv1 = quantities inv.
Proof.
  intros Hdup.
  destruct (card_list_of_scan files) as (inv & Hinv & Hwf & Hhas & Hq & Hlist).
  cbn zeta in Hlist, Hq.
  destruct (categorize_cards_ok files)
    as (inv' & Hinv' & Hcat & _ & Hothers & Hquant).
  assert (inv' = inv) as -> by congruence.
  destruct (matching t files) as [|first rest] eqn:Hm; [cbn in Hdup; lia|].
  destruct (filter_head_split _ _ _ _ Hm) as (before & after & Hfiles & Hf & Hb & _).
  assert (∀ t', representative inv t' = head (matching t' files)) as Hrep.
  { intros t'. unfold representative. rewrite Hcat.
    case_decide as Hnil; [by rewrite Hnil|done]. }
  assert (∀ t' p, representative inv t' = Some p → matches t' p) as Hrep_m.
  { intros t' p. rewrite Hrep. intros Hhead.
    assert (p ∈ matching t' files) as Hp.
    { destruct (matching t' files); [done|]. injection Hhead as ->. left. }
    by apply list_elem_of_filter in Hp as [? _]. }
  assert (representative inv t = Some first) as Hfirst by (by rewrite Hrep, Hm).
  assert (∀ t' m, t' ≠ t → Forall (λ p, ¬ matches t p) (copies inv t' m)) as Hblock.
  { intros t' m Hne. apply Forall_forall. intros p Hin%copies_elem Hmp.
    apply Hne, value_inj. pose proof (Hrep_m _ _ Hin) as Hm'.
    unfold matches in *. congruence. }
  assert (Forall (λ p, ¬ matches t p) (other_files files)) as Hrest.
  { apply Forall_forall. intros p Hun Hmp.
    apply list_elem_of_filter in Hun as [Hun _].
    by destruct (uncategorized_not_matches p t). }
  assert (present files t = true) as Hpresent.
  { unfold present. rewrite Hm. by apply bool_decide_eq_true_2. }
  destruct Hq as (Hv & Hw & Hfe & Hc & _ & _ & Hdos & _).
  assert (∃ n prefix suffix,
            quantity inv (count_key t) = Some n
            ∧ (t ≠ BACK → n = base_quantity t ∧ 0 < n)
            ∧ copies inv VILLAGER
                (if present files VILLAGER then base_quantity VILLAGER else 0)
              ++ copies inv WEREWOLF
                   (if present files WEREWOLF then base_quantity WEREWOLF else 0)
              ++ copies inv FEATHERS
                   (if present files FEATHERS then base_quantity FEATHERS else 0)
              ++ copies inv CAPTAIN
                   (if present files CAPTAIN then base_quantity CAPTAIN else 0)
              ++ other_files files
              ++ copies inv BACK
                   (if present files BACK
                    then Z.max 0
                           (len (other_files files)
                            + ((if present files VILLAGER
                                then base_quantity VILLAGER else 0)
                               + (if present files WEREWOLF
                                  then base_quantity WEREWOLF else 0)
                               + (if present files FEATHERS
                                  then base_quantity FEATHERS else 0)
                               + (if present files CAPTAIN
                                  then base_quantity CAPTAIN else 0)) - 6)
                    else 0)
              = prefix ++ replicate (Z.to_nat n) first ++ suffix
            ∧ Forall (λ p, ¬ matches t p) prefix
            ∧ Forall (λ p, ¬ matches t p) suffix)
    as (n & prefix & suffix & Hn & Hbase & Hcards & Hprefix & Hsuffix).
  { pose proof (λ m, copies_present inv t m first Hfirst) as Hcopies.
    unfold py_repeat in Hcopies. unfold quantity.
    set (bV := copies inv VILLAGER _). set (bW := copies inv WEREWOLF _).
    set (bF := copies inv FEATHERS _). set (bC := copies inv CAPTAIN _).
    set (bB := copies inv BACK _). set (bO := other_files files).
    assert (∀ t' m, t' ≠ t → Forall (λ p, ¬ matches t p) (copies inv t' m))
      as Hb' by exact Hblock.
    destruct t.
    - change (count_key _) with "villageois_count". rewrite Hv, Hpresent.
      exists (base_quantity VILLAGER), [], (bW ++ bF ++ bC ++ bO ++ bB).
      subst bV. rewrite Hcopies, Hpresent.
      split; [reflexivity|]. split; [done|]. split; [reflexivity|].
      split; [constructor|].
      repeat (apply Forall_app; split); first [exact Hrest | by apply Hb'].
    - change (count_key _) with "loup_garou_count". rewrite Hw, Hpresent.
      exists (base_quantity WEREWOLF), bV, (bF ++ bC ++ bO ++ bB).
      subst bW. rewrite Hcopies, Hpresent.
      split; [reflexivity|]. split; [done|]. split; [reflexivity|].
      split; repeat (apply Forall_app; split);
        first [exact Hrest | by apply Hb'].
    - change (count_key _) with "plumes_corbeau_count". rewrite Hfe, Hpresent.
      exists (base_quantity FEATHERS), (bV ++ bW), (bC ++ bO ++ bB).
      subst bF. rewrite Hcopies, Hpresent.
      split; [reflexivity|]. split; [done|].
      split; [by rewrite <- !app_assoc|].
      split; repeat (apply Forall_app; split);
        first [exact Hrest | by apply Hb'].
    - change (count_key _) with "capitaine_count". rewrite Hc, Hpresent.
      exists (base_quantity CAPTAIN), (bV ++ bW ++ bF), (bO ++ bB).
      subst bC. rewrite Hcopies, Hpresent.
      split; [reflexivity|]. split; [done|].
      split; [by rewrite <- !app_assoc|].
      split; repeat (apply Forall_app; split);
        first [exact Hrest | by apply Hb'].
    - change (count_key _) with "dos_count". rewrite Hdos.
      eexists _, (bV ++ bW ++ bF ++ bC ++ bO), [].
      subst bB. rewrite Hcopies.
      split; [reflexivity|]. split; [done|].
      split; [by rewrite <- !app_assoc, app_nil_r|].
      split; [|constructor].
      repeat (apply Forall_app; split); first [exact Hrest | by apply Hb']. }
  eexists inv, first, before, after, _, n, prefix, suffix. split; [done|].
  split. { rewrite Hcat, Hm. by rewrite decide_False. }
  do 3 (split; [done|]). split; [done|].
  split. { intros m. by apply copies_present. }
  split; [exact Hlist|].
  do 2 (split; [assumption|]). do 3 (split; [assumption|]).
  split.
  { intros p Hp Hmp. rewrite Hcards in Hp. rewrite !elem_of_app in Hp.
    rewrite Forall_forall in Hprefix. rewrite Forall_forall in Hsuffix.
    destruct Hp as [Hp|[Hp|Hp]].
    - by destruct (Hprefix _ Hp).
    - by apply elem_of_replicate in Hp as [-> _].
    - by destruct (Hsuffix _ Hp). }
  subst files.
  destruct (once_preserves t before after first Hb Hf) as (Honce & Hsame & Hoth).
  cbn zeta in Honce, Hsame, Hoth. split; [exact Honce|].
  destruct (categorize_cards_ok (once t (before ++ first :: after)))
    as (inv1 & Hinv1 & _ & Hhas1 & Hothers1 & Hquant1).
  exists inv1. split; [done|].
  assert (Ok (quantities inv1) = Ok (quantities inv)) as [= ->]; [|done].
  rewrite <- Hquant1, <- Hquant. apply calculate_quantities_ext.
  - intros t'. rewrite Hhas1, Hhas. unfold present.
    destruct (decide (t' = t)) as [->|Hne].
    + rewrite Honce, Hm. by rewrite !bool_decide_eq_true_2.
    + by rewrite Hsame.
  - by rewrite Hothers1, Hothers, Hoth.
Qed.

Lemma duplicate_category_files_witness :
  (2 ≤ length (matching WEREWOLF duplicate_scan))%nat
  ∧ ∃ inv first cards prefix suffix,
      categorize_cards duplicate_scan = Ok inv
      ∧ categorized inv !! WEREWOLF = Some (matching WEREWOLF duplicate_scan)
      ∧ head (matching WEREWOLF duplicate_scan) = Some first
      ∧ _prepare_card_list inv = Ok cards
      ∧ cards = prefix ++ replicate 4 first ++ suffix
      ∧ Forall (λ p, ¬ matches WEREWOLF p) prefix
      ∧ Forall (λ p, ¬ matches WEREWOLF p) suffix.
Proof.
  assert (2 ≤ length (matching WEREWOLF duplicate_scan))%nat as Hdup
    by (vm_compute; lia).
  split; [exact Hdup|].
  destruct (duplicate_category_files duplicate_scan WEREWOLF Hdup)
    as (inv & first & before & after & cards & n & prefix & suffix & Hinv & Hcat
        & Hfiles & Hfirst & Hbefore & _ & _ & Hlist & _ & Hn & Hcards & Hprefix
        & Hsuffix & _).
  exists inv, first, cards, prefix, suffix.
  split; [exact Hinv|]. split; [exact Hcat|].
  split.
  { rewrite Hfiles. unfold matching. rewrite filter_app, filter_cons.
    rewrite decide_True by exact Hfirst.
    assert (filter (matches WEREWOLF) before = []) as ->; [|reflexivity].
    clear -Hbefore. induction Hbefore as [|p l Hp _ IH]; [reflexivity|].
    rewrite filter_cons, decide_False by exact Hp. exact IH. }
  split; [exact Hlist|].
  destruct (Hn ltac:(discriminate)) as [-> _].
  split; [exact Hcards|]. split; [exact Hprefix|exact Hsuffix].
Defined.

(** ** The instructions summary *)

(** One line of the summary: present categories with a positive count
    get a line, the others none. *)
Lemma summary_line_eq (inv : CardInventory) (items : list string)
    (t : CardType) (desc key : string) (v : pyval) :
  od_find QUANTITY_KEYS t = Some key → key ≠ "" →
  quantities inv !! key = Some v →
  (has_type (categorized inv) t = false → as_int v ≤ 0) →
  summary_line inv items (t, desc)
  = Ok (items ++ if bool_decide (0 < as_int v)
                 then ["• " +:+ py_str v +:+ "x " +:+ desc] else []).
Proof.
  intros Hkey Hne Hv Habs. unfold summary_line. rewrite Hkey.
  rewrite bool_decide_eq_true_2 by done. cbn [andb].
  destruct (has_type (categorized inv) t) eqn:Hhas.
  - unfold dict_getitem. rewrite Hv. cbn [mbind result_bind].
    case_bool_decide; [done|]. by rewrite app_nil_r.
  - rewrite bool_decide_eq_false_2 by (specialize (Habs eq_refl); lia).
    by rewrite app_nil_r.
Qed.

(** C7. The summary block of a scan's inventory has one line for each
    countable category with a positive count, a line with the number of
    other cards exactly when that number is not zero, a line with the
    back count exactly when the back image is present, whatever that
    count is, then a blank and the total line, whose number is the face
    total minus 3. *)
Theorem content_summary (files : list Path) :
  ∃ inv nv nw nf nc n_other back face,
    categorize_cards files = Ok inv
    ∧ quantity inv "villageois_count" = Some nv
    ∧ quantity inv "loup_garou_count" = Some nw
    ∧ quantity inv "plumes_corbeau_count" = Some nf
    ∧ quantity inv "capitaine_count" = Some nc
    ∧ quantity inv "autres_cartes" = Some n_other
    ∧ back_count inv = Ok (PyInt back)
    ∧ total_face_cards inv = Ok (PyInt face)
    ∧ _generate_content_summary inv =
      Ok ((if bool_decide (0 < nv)
           then ["• " +:+ pretty nv +:+ "x Villageois → 3x Villageois-Villageois"]
           else [])
          ++ (if bool_decide (0 < nw)
              then ["• " +:+ pretty nw +:+ "x Loup Garou (séparés)"] else [])
          ++ (if bool_decide (0 < nf)
              then ["• " +:+ pretty nf +:+ "x Plumes → 1x collée"] else [])
          ++ (if bool_decide (0 < nc)
              then ["• " +:+ pretty nc +:+ "x Capitaine → 1x collée"] else [])
          ++ (if bool_decide (n_other ≠ 0)
              then ["• " +:+ pretty n_other +:+ "x Cartes spéciales"] else [])
          ++ (if present files BACK
              then ["• " +:+ pretty back +:+ "x Dos"] else [])
          ++ [""; "Total final : " +:+ pretty (face - 3) +:+ " cartes physiques"]).
Proof.
  destruct (card_list_of_scan files) as (inv & Hinv & Hwf & Hhas & Hq & _).
  cbn zeta in Hq.
  destruct Hq as (Hv & Hw & Hf & Hc & Ho & Hface & Hb & _).
  eexists inv, _, _, _, _, _, _, _. split; [done|].
  unfold quantity, back_count, total_face_cards, dict_getitem.
  rewrite Hv, Hw, Hf, Hc, Ho, Hface, Hb.
  do 7 (split; [reflexivity|]).
  unfold _generate_content_summary, type_to_desc, od_items.
  assert (∀ t, has_type (categorized inv) t = false →
               (if present files t then base_quantity t else 0) ≤ 0) as Habs.
  { intros t. rewrite Hhas. by intros ->. }
  rewrite result_fold_cons, (summary_line_eq inv _ VILLAGER _ _ _ eq_refl ltac:(done) Hv (Habs VILLAGER)).
  cbn [mbind result_bind].
  rewrite result_fold_cons, (summary_line_eq inv _ WEREWOLF _ _ _ eq_refl ltac:(done) Hw (Habs WEREWOLF)).
  cbn [mbind result_bind].
  rewrite result_fold_cons, (summary_line_eq inv _ FEATHERS _ _ _ eq_refl ltac:(done) Hf (Habs FEATHERS)).
  cbn [mbind result_bind].
  rewrite result_fold_cons, (summary_line_eq inv _ CAPTAIN _ _ _ eq_refl ltac:(done) Hc (Habs CAPTAIN)).
  cbn [mbind result_bind result_fold].
  unfold back_count, total_face_cards, dict_getitem.
  rewrite Ho, Hface, Hhas. cbn [mbind result_bind as_int py_str app].
  assert (bool_decide (0 < len (other_files files))
          = bool_decide (len (other_files files) ≠ 0)) as ->.
  { apply bool_decide_ext. unfold len. lia. }
  destruct (bool_decide (len (other_files files) ≠ 0)), (present files BACK);
    rewrite ?Hb; cbn [mbind result_bind py_str];
    rewrite <- ?app_assoc, ?app_nil_r; reflexivity.
Qed.

(** ** Pagination *)

Lemma lift_ok_bind {A C} (x : A) (k : A → io C) : (lift (Ok x) ≫= k) = k x.
Proof. unfold mbind, io_bind, lift. by destruct (k x). Qed.

Lemma io_bind_ext {A C} (m : io A) (k k' : A → io C) :
  (∀ x, k x = k' x) → (m ≫= k) = (m ≫= k').
Proof.
  intros Hk. unfold mbind, io_bind. destruct m as [t [x|e]]; [|done].
  by rewrite Hk.
Qed.

Lemma mapM_cons_ok {A B} (f : A → result B) (x : A) (l : list A) (ys : list B) :
  mapM f (x :: l) = Ok ys →
  ∃ y ys', f x = Ok y ∧ mapM f l = Ok ys' ∧ ys = y :: ys'.
Proof.
  cbn [mapM]. destruct (f x) as [y|e]; [|done]. cbn [mbind result_bind].
  destruct (mapM f l) as [ys'|e]; [|done]. cbn [mbind result_bind].
  intros [= <-]. by exists y, ys'.
Qed.

Lemma mapM_ok {A B} (f : A → result B) (g : A → B) (l : list A) :
  (∀ x, x ∈ l → f x = Ok (g x)) → mapM f l = Ok (g <$> l).
Proof.
  induction l as [|x l IH]; intros Hf; [done|].
  cbn [mapM fmap list_fmap]. rewrite Hf by left. cbn [mbind result_bind].
  rewrite IH; [done|]. intros y Hy. apply Hf. by right.
Qed.

Lemma mapM_length {A B} (f : A → result B) (l : list A) (ys : list B) :
  mapM f l = Ok ys → length ys = length l.
Proof.
  revert ys. induction l as [|x l IH]; intros ys.
  - by intros [= <-].
  - intros (y & ys' & _ & Hys' & ->)%mapM_cons_ok. cbn [length]. f_equal. by apply IH.
Qed.

(** A loop whose body first computes a value from the loop variable is
    the loop over the computed values. *)
Lemma io_for_mapM {A B} (f : A → result B) (body : A → io unit)
    (body' : A * B → io unit) (l : list A) (ys : list B) :
  mapM f l = Ok ys →
  (∀ x y, x ∈ l → f x = Ok y → body x = body' (x, y)) →
  io_for l body = io_for (zip l ys) body'.
Proof.
  unfold io_for. revert ys. induction l as [|x l IH]; intros ys.
  - by intros [= <-].
  - intros (y & ys' & Hfx & Hys' & ->)%mapM_cons_ok Hbody.
    cbn [zip zip_with io_fold].
    rewrite (Hbody x y) by (done || left).
    apply io_bind_ext. intros [].
    apply IH; [done|]. intros x' y' Hx'. apply Hbody. by right.
Qed.

Lemma getitem_nat {A} (l : list A) (i : nat) (x : A) :
  l !! i = Some x → py_getitem l (Z.of_nat i) = Ok x.
Proof.
  intros Hx. unfold py_getitem.
  destruct (decide (Z.of_nat i < 0)); [lia|].
  destruct (decide (Z.of_nat i < 0)); [lia|].
  by rewrite Nat2Z.id, Hx.
Qed.

(** Reading [n] consecutive items from index [a] on. *)
Lemma mapM_getitem_seqZ {A} (l : list A) (s : Z) (n a : nat) :
  (a + n ≤ length l)%nat →
  mapM (λ i, card ← py_getitem l i; Ok (card, i - s))
       (seqZ (Z.of_nat a) (Z.of_nat n))
  = Ok (zip (take n (drop a l)) (seqZ (Z.of_nat a - s) (Z.of_nat n))).
Proof.
  revert a. induction n as [|n IH]; intros a Hlen; [done|].
  destruct (lookup_lt_is_Some_2 l a) as [x Hx]; [lia|].
  rewrite (seqZ_cons (Z.of_nat a)), (seqZ_cons (Z.of_nat a - s)) by lia.
  rewrite (drop_S _ _ _ Hx). cbn [take zip zip_with mapM].
  rewrite (getitem_nat l a x Hx). cbn [mbind result_bind].
  replace (Z.succ (Z.of_nat a)) with (Z.of_nat (S a)) by lia.
  replace (Z.pred (Z.of_nat (S n))) with (Z.of_nat n) by lia.
  rewrite IH by lia. cbn [mbind result_bind mret result_ret].
  do 3 f_equal. f_equal. lia.
Qed.

Lemma take_length_take {A} (c : nat) (l : list A) :
  take (length (take c l)) l = take c l.
Proof.
  rewrite length_take. destruct (decide (c ≤ length l)%nat).
  - by rewrite Nat.min_l.
  - rewrite Nat.min_r by lia. by rewrite !take_ge by lia.
Qed.

Lemma page_cards_eq (cards : list Path) (layout : LayoutConfig) (page_num : Z) :
  0 < cards_per_page layout → 0 ≤ page_num →
  page_cards cards layout page_num
  = Ok (page_slice (cards_per_page layout) cards page_num).
Proof.
  intros Hc Hk. unfold page_cards, page_slice, py_range2.
  set (c := cards_per_page layout) in *.
  set (a := (Z.to_nat page_num * Z.to_nat c)%nat).
  assert (page_num * c = Z.of_nat a) as -> by (unfold a; lia).
  set (n := length (take (Z.to_nat c) (drop a cards))).
  assert (n = Nat.min (Z.to_nat c) (length cards - a)) as Hn
    by (unfold n; by rewrite length_take, length_drop).
  assert (Z.min (Z.of_nat a + c) (len cards) - Z.of_nat a ≤ 0
          ∨ Z.min (Z.of_nat a + c) (len cards) - Z.of_nat a = Z.of_nat n) as [Hle | Heq]
    by (unfold len; lia).
  - assert (n = 0)%nat as Hn0 by (unfold len in Hle; lia).
    unfold n in Hn0. apply length_zero_iff_nil in Hn0. rewrite Hn0.
    by rewrite seqZ_nil by done.
  - rewrite Heq. unfold len in Heq.
    rewrite (mapM_getitem_seqZ cards (Z.of_nat a) n a) by lia.
    rewrite Z.sub_diag. unfold len. fold n. do 2 f_equal.
    unfold n. apply take_length_take.
Qed.

Lemma io_for_mapM_values {A B} (f : A → result B) (body : A → io unit)
    (body' : B → io unit) (l : list A) (ys : list B) :
  mapM f l = Ok ys →
  (∀ x y, x ∈ l → f x = Ok y → body x = body' y) →
  io_for l body = io_for ys body'.
Proof.
  unfold io_for. revert ys. induction l as [|x l IH]; intros ys.
  - by intros [= <-].
  - intros (y & ys' & Hfx & Hys' & ->)%mapM_cons_ok Hbody.
    cbn [io_fold]. rewrite (Hbody x y) by (done || left).
    apply io_bind_ext. intros [].
    apply IH; [done|]. intros x' y' Hx'. apply Hbody. by right.
Qed.

Lemma card_pages_eq (cards : list Path) (layout : LayoutConfig) :
  0 < cards_per_page layout →
  card_pages cards layout
  = Ok (page_slice (cards_per_page layout) cards
          <$> py_range ((len cards + cards_per_page layout - 1)
                        / cards_per_page layout)).
Proof.
  intros Hc. unfold card_pages, py_floordiv.
  rewrite decide_False by lia. cbn [mbind result_bind].
  apply mapM_ok. intros k [Hk _]%elem_of_seqZ. apply page_cards_eq; lia.
Qed.

(** What [_add_card_pages] does is page after page what [draw_page]
    does with the cards of that page. *)
Lemma add_card_pages_eq (w : world) (self : CardPDFGenerator)
    (cards : list Path) (layout : LayoutConfig) (pages : list (list (Path * Z))) :
  0 < cards_per_page layout →
  card_pages cards layout = Ok pages →
  _add_card_pages w self cards layout
  = io_for (zip (py_range (len pages)) pages) (draw_page w self cards layout).
Proof.
  intros Hc. unfold card_pages, _add_card_pages, py_floordiv.
  rewrite decide_False by lia. cbn [mbind result_bind]. rewrite lift_ok_bind.
  set (total := (len cards + cards_per_page layout - 1) / cards_per_page layout).
  assert (0 ≤ total) as Htotal by (apply Z.div_pos; unfold len; lia).
  intros Hpages.
  assert (len pages = total) as ->.
  { unfold len. rewrite (mapM_length _ _ _ Hpages).
    unfold py_range, py_range2. rewrite length_seqZ. lia. }
  apply (io_for_mapM _ _ _ _ _ Hpages).
  intros page_num page _ Hpage. unfold draw_page.
  apply io_bind_ext. intros _. apply io_bind_ext. intros _.
  apply (io_for_mapM_values _ _ _ _ _ Hpage).
  intros i [card position] _ Hi.
  destruct (py_getitem cards i) as [card'|e]; [|done].
  cbn [mbind result_bind] in Hi. injection Hi as -> <-.
  by rewrite lift_ok_bind.
Qed.

Lemma concat_slices {A} (c : nat) (l : list A) (t : nat) :
  concat ((λ k, take c (drop (k * c) l)) <$> seq 0 t) = take (t * c) l.
Proof.
  induction t as [|t IH]; [done|].
  rewrite seq_S, fmap_app, concat_app, IH. cbn [fmap list_fmap concat].
  rewrite app_nil_r, take_take_drop. f_equal. lia.
Qed.

Lemma page_slice_cards (capacity : Z) (cards : list Path) (page_num : Z) :
  (page_slice capacity cards page_num).*1
  = take (Z.to_nat capacity) (drop (Z.to_nat page_num * Z.to_nat capacity) cards).
Proof.
  unfold page_slice. apply fst_zip. rewrite length_seqZ. unfold len. lia.
Qed.

Lemma page_slice_positions (capacity : Z) (cards : list Path) (page_num : Z) :
  (page_slice capacity cards page_num).*2
  = py_range (len (page_slice capacity cards page_num)).
Proof.
  unfold page_slice, py_range, py_range2.
  set (slice := take _ _).
  assert (length (seqZ 0 (len slice)) = length slice) as Hlen
    by (rewrite length_seqZ; unfold len; lia).
  rewrite snd_zip by lia. unfold len at 2.
  rewrite length_zip_with, Hlen, Nat.min_id, Z.sub_0_r. done.
Qed.

Lemma page_slice_length (capacity : Z) (cards : list Path) (page_num : Z) :
  length (page_slice capacity cards page_num)
  = Nat.min (Z.to_nat capacity)
            (length cards - Z.to_nat page_num * Z.to_nat capacity).
Proof.
  rewrite <- (length_fmap fst), page_slice_cards.
  by rewrite length_take, length_drop.
Qed.

Lemma pages_lookup (capacity : Z) (cards : list Path) (total : Z)
    (k : nat) (page : list (Path * Z)) :
  (page_slice capacity cards <$> py_range total) !! k = Some page →
  page = page_slice capacity cards (Z.of_nat k) ∧ Z.of_nat k < total.
Proof.
  unfold py_range, py_range2. rewrite list_lookup_fmap, Z.sub_0_r.
  destruct (seqZ 0 total !! k) as [z|] eqn:Hz; [|done].
  apply lookup_seqZ in Hz as [-> Hk]. intros [= <-].
  by rewrite Z.add_0_l.
Qed.

(** C3. With a positive page capacity, [_add_card_pages] draws the pages
    [card_pages] lists; these pages, one after the other, are exactly
    the card list; every page holds at least one and at most rows x
    columns cards, and every page but the last holds exactly that many;
    on a page the cards take positions 0, 1, 2, ... and, with a
    positive column count, position [i] is column [i mod columns] of
    row [i / columns], a row of the grid. *)
Theorem pagination (w : world) (self : CardPDFGenerator) (cards : list Path)
    (layout : LayoutConfig) :
  0 < cards_per_page layout →
  ∃ pages,
    card_pages cards layout = Ok pages
    ∧ _add_card_pages w self cards layout
      = io_for (zip (py_range (len pages)) pages) (draw_page w self cards layout)
    ∧ concat ((λ page : list (Path * Z), page.*1) <$> pages) = cards
    ∧ (∀ k page, pages !! k = Some page →
         0 < len page ≤ cards_per_col layout * cards_per_row layout
         ∧ ((S k < length pages)%nat →
            len page = cards_per_col layout * cards_per_row layout))
    ∧ (∀ page, page ∈ pages → page.*2 = py_range (len page))
    ∧ (∀ page i card position,
         page ∈ pages → page !! i = Some (card, position) →
         position = Z.of_nat i
         ∧ ∃ row col,
             grid_cell layout position = Ok (row, col)
             ∧ position = row * cards_per_row layout + col
             ∧ (0 < cards_per_row layout →
                0 ≤ col < cards_per_row layout ∧ 0 ≤ row < cards_per_col layout)).
Proof.
  intros Hc.
  pose proof (card_pages_eq cards layout Hc) as Hpages.
  set (c := cards_per_page layout) in *.
  set (total := (len cards + c - 1) / c) in *.
  set (pages := page_slice c cards <$> py_range total) in *.
  assert (0 ≤ total) as Htotal by (apply Z.div_pos; unfold len; lia).
  assert (c * total ≤ len cards + c - 1 < c * total + c) as Hdiv.
  { pose proof (Z.div_mod (len cards + c - 1) c ltac:(lia)) as Hdm.
    pose proof (Z.mod_pos_bound (len cards + c - 1) c Hc) as Hmod.
    fold total in Hdm. lia. }
  assert (length pages = Z.to_nat total) as Hnpages.
  { unfold pages, py_range, py_range2. rewrite length_fmap, length_seqZ. lia. }
  assert (∀ k page, pages !! k = Some page →
            page = page_slice c cards (Z.of_nat k)
            ∧ Z.of_nat k < total
            ∧ length page
              = Nat.min (Z.to_nat c) (length cards - k * Z.to_nat c)) as Hlookup.
  { intros k page [-> Hk]%pages_lookup. repeat split; [done|].
    by rewrite page_slice_length, Nat2Z.id. }
  exists pages. split; [done|].
  split; [by apply add_card_pages_eq|].
  split.
  { unfold pages, py_range, py_range2, seqZ.
    rewrite <- !list_fmap_compose.
    rewrite (list_fmap_ext _ (λ k, take (Z.to_nat c) (drop (k * Z.to_nat c) cards))).
    - rewrite concat_slices, Z.sub_0_r. apply take_ge. unfold len in *. nia.
    - intros i k _. cbn [compose]. rewrite page_slice_cards.
      by rewrite Z.add_0_r, Nat2Z.id. }
  split.
  { intros k page (-> & Hk & Hlen)%Hlookup.
    replace (cards_per_col layout * cards_per_row layout) with c
      by (unfold c, cards_per_page; lia).
    unfold len in *. split; [nia|]. intros Hnext. nia. }
  split.
  { intros page (z & -> & _)%list_elem_of_fmap. apply page_slice_positions. }
  intros page i card position Hpage Hi.
  apply list_elem_of_lookup in Hpage as [k Hk].
  pose proof (Hlookup k page Hk) as (Hslice & _ & Hlen).
  assert (page.*2 = py_range (len page)) as Hpos
    by (rewrite Hslice; apply page_slice_positions).
  assert (page.*2 !! i = Some position) as Hposition
    by (by rewrite list_lookup_fmap, Hi).
  rewrite Hpos in Hposition. unfold py_range, py_range2 in Hposition.
  apply lookup_seqZ in Hposition as [-> Hbound].
  rewrite Z.add_0_l. unfold len in Hbound.
  assert (Z.of_nat i < cards_per_col layout * cards_per_row layout) as Hcap
    by (unfold c, cards_per_page in *; lia).
  split; [done|].
  assert (cards_per_row layout ≠ 0) as Hnz
    by (unfold c, cards_per_page in Hc; lia).
  eexists _, _. unfold grid_cell, py_floordiv, py_mod.
  rewrite !decide_False by done. cbn [mbind result_bind].
  split; [done|].
  pose proof (Z.div_mod (Z.of_nat i) (cards_per_row layout) Hnz).
  split; [lia|]. intros Hcols.
  pose proof (Z.mod_pos_bound (Z.of_nat i) (cards_per_row layout) Hcols).
  split; [lia|]. split.
  - apply Z.div_pos; lia.
  - apply Z.div_lt_upper_bound; lia.
Qed.

Lemma pagination_witness :
  0 < cards_per_page sample_layout
  ∧ ∃ pages,
      card_pages seven_cards sample_layout = Ok pages
      ∧ _add_card_pages empty_folder (CardPDFGenerator_init OUTPUT_FILENAME)
          seven_cards sample_layout
        = io_for (zip (py_range (len pages)) pages)
            (draw_page empty_folder (CardPDFGenerator_init OUTPUT_FILENAME)
               seven_cards sample_layout)
      ∧ concat ((λ page : list (Path * Z), page.*1) <$> pages) = seven_cards
      ∧ (∀ k page, pages !! k = Some page →
           0 < len page ≤ cards_per_col sample_layout * cards_per_row sample_layout
           ∧ ((S k < length pages)%nat →
              len page = cards_per_col sample_layout * cards_per_row sample_layout))
      ∧ (∀ page, page ∈ pages → page.*2 = py_range (len page))
      ∧ (∀ page i card position,
           page ∈ pages → page !! i = Some (card, position) →
           position = Z.of_nat i
           ∧ ∃ row col,
               grid_cell sample_layout position = Ok (row, col)
               ∧ position = row * cards_per_row sample_layout + col
               ∧ (0 < cards_per_row sample_layout →
                  0 ≤ col < cards_per_row sample_layout
                  ∧ 0 ≤ row < cards_per_col sample_layout)).
Proof.
  assert (0 < cards_per_page sample_layout) as Hc by (vm_compute; reflexivity).
  split; [exact Hc|].
  exact (pagination empty_folder (CardPDFGenerator_init OUTPUT_FILENAME)
           seven_cards sample_layout Hc).
Defined.

(** ** Layout *)

(** The layout of the A4 generator, computed in binary64. *)
Lemma calculate_layout_A4 (output : string) :
  _calculate_layout (CardPDFGenerator_init output)
  = Ok (mkLayoutConfig (80 * mm) 2 3 0x1.2e5cb972e5cbbp+4).
Proof. vm_compute. reflexivity. Qed.

(** The conversions of the integer operands of the layout. *)
Lemma layout_constants :
  int_mul_float (2 * MARGIN) mm = Ok (30 * mm)%float
  ∧ int_mul_float CARD_MAX_SIZE mm = Ok (80 * mm)%float
  ∧ int_mul_float CARD_SPACING_H_MIN mm = Ok (10 * mm)%float
  ∧ int_mul_float CARD_SPACING_V mm = Ok (8 * mm)%float
  ∧ float_of_int 2 = Ok 2%float
  ∧ float_of_int (2 + 1) = Ok 3%float.
Proof. repeat split; vm_compute; reflexivity. Qed.

(** The layout for any page, with the integer operands converted. *)
Lemma calculate_layout_eq (self : CardPDFGenerator) :
  let printable_width := (page_width self - 30 * mm)%float in
  let printable_height := (page_height self - 30 * mm)%float in
  let edge := py_min (80 * mm) ((printable_width - 10 * mm) / 2) in
  let gap := ((printable_width - 2 * edge) / 3)%float in
  _calculate_layout self
  = (rows ← float_floordiv printable_height (edge + 8 * mm);
     n ← int_of_float rows;
     Ok (mkLayoutConfig edge 2 n gap)).
Proof.
  destruct layout_constants as (Hmargins & Hmax & Hmin & Hv & H2 & H3).
  intros printable_width printable_height edge gap. unfold _calculate_layout.
  rewrite Hmargins, Hmax, Hmin, Hv. cbn [mbind result_bind].
  unfold float_div_int, int_mul_float. rewrite H2, H3. cbn [mbind result_bind].
  unfold float_truediv.
  change (2 =? 0)%float with false. change (3 =? 0)%float with false.
  cbn [mbind result_bind]. reflexivity.
Qed.

(** Every page of whole millimetres from 41 by 31 to 300 by 450 passes
    the check. *)
Lemma whole_mm_pages :
  forallb (λ w, forallb (whole_mm_check w) (seqZ 31 420)) (seqZ 41 260) = true.
Proof. vm_compute. reflexivity. Qed.

(** C5. For every page, the layout has two columns; the card edge is
    the smaller of 80 mm and half of what the printable width (the page
    width less both margins) leaves after the minimum gap; the
    horizontal gap is the width left over by the two cards divided by
    three; the row count is the floor division of the printable height
    by the card edge plus the vertical gap, and the function returns
    whenever that division does.  On pages of whole millimetres, from
    41 by 31 to 300 by 450, it always returns, the row count is the
    floor of the quotient of the numbers these floats denote, and the
    card is smaller than 80 mm exactly when the page is narrower than
    200 mm. *)
Theorem layout_geometry (self : CardPDFGenerator) :
  let printable_width := (page_width self - 30 * mm)%float in
  let printable_height := (page_height self - 30 * mm)%float in
  let fitting := ((printable_width - 10 * mm) / 2)%float in
  let edge := py_min (80 * mm) fitting in
  let gap := ((printable_width - 2 * edge) / (2 + 1))%float in
  _calculate_layout self
  = (rows ← float_floordiv printable_height (edge + 8 * mm);
     n ← int_of_float rows;
     Ok (mkLayoutConfig edge 2 n gap))
  ∧ edge = (if (fitting <? 80 * mm)%float then fitting else (80 * mm)%float)
  ∧ (∀ w h : Z,
       41 ≤ w ≤ 300 → 31 ≤ h ≤ 450 →
       int_mul_float w mm = Ok (page_width self) →
       int_mul_float h mm = Ok (page_height self) →
       ∃ layout height pitch,
         _calculate_layout self = Ok layout
         ∧ float_to_Q printable_height = Some height
         ∧ float_to_Q (card_size layout + 8 * mm) = Some pitch
         ∧ (0 < pitch)%Q
         ∧ cards_per_col layout = Qfloor (height / pitch)%Q
         ∧ (fitting <? 80 * mm)%float = bool_decide (w < 200)
         ∧ (card_size layout <=? 80 * mm)%float = true).
Proof.
  intros printable_width printable_height fitting edge gap.
  split; [apply calculate_layout_eq|]. split; [reflexivity|].
  intros w h Hw Hh Hwidth Hheight.
  pose proof whole_mm_pages as Hall.
  rewrite forallb_forall in Hall.
  assert (In w (seqZ 41 260)) as Hinw by (apply list_elem_of_In, elem_of_seqZ; lia).
  pose proof (Hall w Hinw) as Hrow. cbv beta in Hrow.
  rewrite forallb_forall in Hrow.
  assert (In h (seqZ 31 420)) as Hinh by (apply list_elem_of_In, elem_of_seqZ; lia).
  pose proof (Hrow h Hinh) as Hcheck. clear Hall Hrow Hinw Hinh.
  unfold whole_mm_check in Hcheck. rewrite Hwidth, Hheight in Hcheck.
  assert (_calculate_layout
            (mkCardPDFGenerator "" (page_width self) (page_height self))
          = _calculate_layout self) as Hsame by (by destruct self).
  rewrite Hsame in Hcheck.
  clear Hsame.
  destruct (_calculate_layout self) as [layout|e] eqn:Hlayout;
    [|discriminate Hcheck].
  fold printable_height in Hcheck.
  destruct (float_to_Q printable_height) as [height|] eqn:Hheight_q;
    [|discriminate Hcheck].
  destruct (float_to_Q (card_size layout + 8 * mm)) as [pitch|] eqn:Hpitch;
    [|discriminate Hcheck].
  apply andb_prop in Hcheck as [Hcheck Hmax].
  apply andb_prop in Hcheck as [Hcheck Hshrink].
  apply andb_prop in Hcheck as [Hpos Hrows].
  apply bool_decide_eq_true in Hpos. apply bool_decide_eq_true in Hrows.
  apply Bool.eqb_prop in Hshrink.
  exists layout, height, pitch. do 3 (split; [first [reflexivity|assumption]|]).
  split. { unfold Qlt. cbn [Qnum Qden]. lia. }
  split; [exact Hrows|]. split; [exact Hshrink|exact Hmax].
Qed.

Lemma layout_geometry_witness :
  int_mul_float 148 mm = Ok (page_width a5_generator)
  ∧ int_mul_float 210 mm = Ok (page_height a5_generator)
  ∧ ∃ layout height pitch,
      _calculate_layout a5_generator = Ok layout
      ∧ float_to_Q (page_height a5_generator - 30 * mm) = Some height
      ∧ float_to_Q (card_size layout + 8 * mm) = Some pitch
      ∧ cards_per_col layout = Qfloor (height / pitch)%Q
      ∧ ((page_width a5_generator - 30 * mm - 10 * mm) / 2 <? 80 * mm)%float
        = true.
Proof.
  assert (int_mul_float 148 mm = Ok (page_width a5_generator)) as Hwidth
    by (vm_compute; reflexivity).
  assert (int_mul_float 210 mm = Ok (page_height a5_generator)) as Hheight
    by (vm_compute; reflexivity).
  split; [exact Hwidth|]. split; [exact Hheight|].
  destruct (proj2 (proj2 (layout_geometry a5_generator)) 148 210
              ltac:(lia) ltac:(lia) Hwidth Hheight)
    as (layout & height & pitch & Hlayout & Hh & Hp & _ & Hrows & Hshrink & _).
  exists layout, height, pitch.
  split; [exact Hlayout|]. split; [exact Hh|]. split; [exact Hp|].
  split; [exact Hrows|exact Hshrink].
Defined.

(** The layout of the A5 generator: the card shrinks to half of the
    108 mm that the margins and the minimum gap leave, and two rows
    fit. *)
Example layout_A5 :
  ∃ layout,
    _calculate_layout a5_generator = Ok layout
    ∧ cards_per_col layout = 2
    ∧ card_size layout = ((148 * mm - 30 * mm - 10 * mm) / 2)%float
    ∧ (card_size layout <? 80 * mm)%float = true.
Proof.
  eexists. split; [vm_compute; reflexivity|].
  repeat split; vm_compute; reflexivity.
Qed.

(** C6. On A4 with the constants of the program (margin 15 mm, largest
    card edge 80 mm, smallest horizontal gap 10 mm, vertical gap 8 mm)
    the two cards and three gaps of a row fit the printable width, the
    rows fit the printable height, and the card edge is at most 80 mm;
    the comparisons are the program's own, on binary64 numbers. *)
Theorem layout_fits (output : string) :
  let self := CardPDFGenerator_init output in
  let printable_width := (page_width self - 2 * 15 * mm)%float in
  let printable_height := (page_height self - 2 * 15 * mm)%float in
  ∃ layout rows,
    (MARGIN, CARD_MAX_SIZE, CARD_SPACING_H_MIN, CARD_SPACING_V) = (15, 80, 10, 8)
    ∧ _calculate_layout self = Ok layout
    ∧ float_of_int (cards_per_col layout) = Ok rows
    ∧ (card_size layout * 2 + horizontal_spacing layout * 3
       <=? printable_width)%float = true
    ∧ (rows * (card_size layout + 8 * mm) <=? printable_height)%float = true
    ∧ (card_size layout <=? 80 * mm)%float = true.
Proof.
  intros self printable_width printable_height.
  eexists _, _. unfold self. rewrite calculate_layout_A4.
  split; [reflexivity|]. split; [reflexivity|].
  cbn [cards_per_row card_size horizontal_spacing cards_per_col].
  split; [vm_compute; reflexivity|].
  repeat split; vm_compute; reflexivity.
Qed.

(** The comparison on the width is an equality of floats; as exact
    numbers, the division by three rounds the gap up, and two cards and
    three gaps exceed the printable width by 2^-48 point. *)
Remark layout_width_rounding (output : string) :
  let self := CardPDFGenerator_init output in
  ∃ layout edge gap width,
    _calculate_layout self = Ok layout
    ∧ float_to_Q (card_size layout) = Some edge
    ∧ float_to_Q (horizontal_spacing layout) = Some gap
    ∧ float_to_Q (page_width self - 2 * 15 * mm) = Some width
    ∧ (card_size layout * 2 + horizontal_spacing layout * 3)%float
      = (page_width self - 2 * 15 * mm)%float
    ∧ Qeq (edge * 2 + gap * 3 - width)%Q (1 # 2 ^ 48)%Q.
Proof.
  intros self. eexists _, _, _, _. unfold self. rewrite calculate_layout_A4.
  split; [reflexivity|].
  cbn [cards_per_row card_size horizontal_spacing cards_per_col].
  split; [vm_compute; reflexivity|].
  split; [vm_compute; reflexivity|].
  split; [vm_compute; reflexivity|].
  split; vm_compute; reflexivity.
Qed.

(** ** The missing and the empty folder *)

(** The scan of a directory. *)
Lemma scan_directory (w : world) (entries : list string) :
  cards_dir w = Directory entries →
  scan_card_files w = Ok (card <$> filter (λ s, ends_with ".png" s) entries).
Proof. intros Hdir. unfold scan_card_files, glob_png. by rewrite Hdir. Qed.

Lemma filter_none {A} (f : A → bool) (l : list A) :
  Forall (λ x, f x = false) l → List.filter f l = [].
Proof.
  induction 1 as [|x l Hx _ IH]; [done|]. cbn [List.filter]. by rewrite Hx.
Qed.

Lemma main_missing (drawable : string → bool)
    (write_error : string → option exception) :
  main (mkWorld Absent drawable write_error)
  = ([Print [FStr ("=== Werewolf Card PDF Generator ===" +:+ nl)];
      Print [FStr "Error: ";
             FExc (FileNotFoundError "Cards directory 'Cartes' not found")]],
     1).
Proof. reflexivity. Qed.

Lemma empty_inventory :
  ∃ inv,
    categorize_cards [] = Ok inv
    ∧ Forall (λ key, quantity inv key = Some 0) quantity_names
    ∧ _prepare_card_list inv = Ok [].
Proof.
  destruct (card_list_of_scan []) as (inv & Hinv & _ & _ & Hq & Hlist).
  cbn zeta in Hq, Hlist.
  assert (∀ t, present [] t = false) as Hp by reflexivity.
  rewrite !Hp in Hq, Hlist.
  change (other_files []) with (@nil Path) in Hq, Hlist.
  change (len []) with 0 in Hq.
  destruct Hq as (Hv & Hw & Hf & Hc & Ho & Hface & Hb & Htotal).
  exists inv. split; [done|]. split.
  - unfold quantity_names, quantity.
    repeat (constructor; [by rewrite ?Hv, ?Hw, ?Hf, ?Hc, ?Ho, ?Hface, ?Hb, ?Htotal|]).
    constructor.
  - rewrite Hlist. unfold copies.
    by repeat (destruct (representative inv _)).
Qed.

(** The run on an empty scan: the banner, the counts, the instructions
    page and one page break; then the document is saved, or the attempt
    raises and the run reports it. *)
Lemma main_empty_scan (w : world) :
  scan_card_files w = Ok [] →
  ∃ before ending code,
    main w = (before ++ ShowPage :: ending, code)
    ∧ Forall (λ e, is_card_drawing e = false ∧ is_show_page e = false)
        (before ++ ending)
    ∧ (code = 0 ∨ code = 1)
    ∧ (write_error w OUTPUT_FILENAME = None →
       code = 0
       ∧ ending = [Save; Print [FStr (nl +:+ "✅ PDF generated: "
                                      +:+ OUTPUT_FILENAME)]]).
Proof.
  intros Hscan.
  destruct (write_error w OUTPUT_FILENAME) as [e|] eqn:Hwe; [destruct e|].
  all: eassert (main w = _) as Hmain;
         [ unfold main, main_body, generate, save;
           rewrite Hscan; cbn [CardPDFGenerator_init output_filename];
           rewrite Hwe; vm_compute; reflexivity
         | rewrite Hmain; clear Hmain ].
  all: match goal with
       | |- ∃ before ending code, (?events, ?c) = _ ∧ _ =>
           exists (take 37 events), (drop 38 events), c
       end.
  all: split; [reflexivity|].
  all: split; [cbn [take drop app]; by repeat constructor|].
  all: split; [by (left + right)|].
  all: intros; try discriminate; by split.
Qed.

(** C8 by the letter -- the scan fails exactly when there is no folder
    -- does not hold where the folder's name is taken by a regular
    file: there is no folder, yet the scan raises nothing and returns
    no file, and the run ends with exit code 0. *)
Lemma folder_name_taken_by_file :
  is_dir (cards_dir file_for_folder) = false
  ∧ scan_card_files file_for_folder = Ok []
  ∧ (main file_for_folder).2 = 0
  ∧ ¬ ((∃ e, scan_card_files file_for_folder = Raise e)
       ↔ is_dir (cards_dir file_for_folder) = false).
Proof.
  split; [reflexivity|]. split; [reflexivity|]. split; [vm_compute; reflexivity|].
  intros [_ Hraise]. destruct (Hraise eq_refl) as [e He]. discriminate He.
Qed.

(** C8, with the test the code makes. The scan raises -- and then
    [FileNotFoundError] -- exactly when nothing exists at the path of
    the cards directory, folder or not; the
    run then ends with exit code 1 after console messages only, without
    a single canvas call.  A path taken by something that is no folder
    is scanned like an empty folder.  An empty scan is no error: every
    derived quantity of its inventory is 0, its card list is empty, no
    card page is drawn, and the run draws the instructions page only;
    it ends with exit code 0 when the document can be written. *)
Theorem missing_and_empty_folder (w : world) :
  ((∃ e, scan_card_files w = Raise e) ↔ path_exists (cards_dir w) = false)
  ∧ (is_dir (cards_dir w) = false →
     (∃ e, scan_card_files w = Raise e) ↔ cards_dir w ≠ NotADirectory)
  ∧ (path_exists (cards_dir w) = false →
     (∃ msg, scan_card_files w = Raise (FileNotFoundError msg))
     ∧ ∃ events,
         main w = (events, 1)
         ∧ Forall (λ e, is_canvas_event e = false) events)
  ∧ (cards_dir w = Directory [] ∨ cards_dir w = NotADirectory →
     scan_card_files w = Ok [])
  ∧ (scan_card_files w = Ok [] →
     ∃ inv layout events code,
       categorize_cards [] = Ok inv
       ∧ Forall (λ key, quantity inv key = Some 0) quantity_names
       ∧ _prepare_card_list inv = Ok []
       ∧ _calculate_layout (CardPDFGenerator_init OUTPUT_FILENAME) = Ok layout
       ∧ card_pages [] layout = Ok []
       ∧ _add_card_pages w (CardPDFGenerator_init OUTPUT_FILENAME) [] layout
         = mret tt
       ∧ main w = (events, code)
       ∧ Forall (λ e, is_card_drawing e = false) events
       ∧ List.filter is_show_page events = [ShowPage]
       ∧ (write_error w OUTPUT_FILENAME = None →
          code = 0
          ∧ ∃ before, events = before ++ [ShowPage; Save; Print [FStr
                (nl +:+ "✅ PDF generated: " +:+ OUTPUT_FILENAME)]]
              ∧ Forall (λ e, is_show_page e = false) before)).
Proof.
  split.
  { unfold scan_card_files. destruct (cards_dir w); cbn; split; try done.
    - by eexists.
    - by intros [e ?].
    - by intros [e ?]. }
  split.
  { unfold scan_card_files. destruct (cards_dir w); cbn; intros ?; split; try done.
    - by eexists.
    - by intros [e ?]. }
  split.
  { intros Hmissing. split.
    - unfold scan_card_files. rewrite Hmissing. by eexists.
    - destruct w as [dir drawable write_error]. cbn in Hmissing.
      destruct dir; try discriminate Hmissing.
      rewrite main_missing. eexists. split; [reflexivity|].
      by repeat constructor. }
  split.
  { intros [Hempty|Hfile]; unfold scan_card_files; by rewrite ?Hempty, ?Hfile. }
  intros Hscan.
  destruct empty_inventory as (inv & Hinv & Hzero & Hlist).
  destruct (main_empty_scan w Hscan)
    as (before & ending & code & Hmain & Hkind & _ & Hsaved).
  apply Forall_app in Hkind as [Hbefore Hending].
  exists inv, a4_layout, (before ++ ShowPage :: ending), code.
  do 3 (split; [done|]).
  split; [apply calculate_layout_A4|].
  split; [reflexivity|]. split; [reflexivity|]. split; [exact Hmain|].
  split.
  { apply Forall_app. split; [|constructor; [done|]];
      (eapply Forall_impl; [eassumption|]); by intros e [? _]. }
  split.
  { rewrite List.filter_app. cbn [List.filter is_show_page].
    rewrite (filter_none is_show_page before), (filter_none is_show_page ending);
      [done| |]; (eapply Forall_impl; [eassumption|]); by intros e [_ ?]. }
  intros Hwe. destruct (Hsaved Hwe) as [-> ->]. split; [done|].
  exists before. split; [done|].
  eapply Forall_impl; [exact Hbefore|]. by intros e [_ ?].
Qed.

Lemma missing_and_empty_folder_witness :
  (path_exists (cards_dir missing_folder) = false
   ∧ (∃ events,
        main missing_folder = (events, 1)
        ∧ Forall (λ e, is_canvas_event e = false) events))
  ∧ (scan_card_files empty_folder = Ok []
     ∧ ∃ events,
         main empty_folder = (events, 0)
         ∧ Forall (λ e, is_card_drawing e = false) events
         ∧ List.filter is_show_page events = [ShowPage]).
Proof.
  split.
  - split; [reflexivity|].
    exact (proj2 (proj1 (proj2 (proj2 (missing_and_empty_folder missing_folder)))
                    eq_refl)).
  - split; [reflexivity|].
    destruct (proj2 (proj2 (proj2 (proj2 (missing_and_empty_folder empty_folder))))
                eq_refl)
      as (inv & layout & events & code & _ & _ & _ & _ & _ & _ & Hmain & Hdraw
          & Hshow & Hsaved).
    destruct (Hsaved eq_refl) as [Hcode _].
    exists events. rewrite Hcode in Hmain. exact (conj Hmain (conj Hdraw Hshow)).
Defined.

(** ** Worked examples *)

(** Float floor division against values CPython prints. *)
Example floordiv_samples :
  float_floordiv 1 0.1 = Ok 9%float
  ∧ float_floordiv (-1) 0.1 = Ok (-10)%float
  ∧ float_floordiv 7.5 (-2) = Ok (-4)%float
  ∧ float_floordiv 6 3 = Ok 2%float
  ∧ float_floordiv 1 0 = Raise ZeroDivisionError
  ∧ int_of_float (-3.99) = Ok (-3)
  ∧ float_of_int (2 ^ 53 + 1) = Ok 9007199254740992%float
  ∧ float_of_int (2 ^ 1024) = Raise OverflowError.
Proof. repeat split; vm_compute; reflexivity. Qed.

(** The run on a missing folder: the banner, the error, exit code 1. *)
Example main_missing_folder :
  main missing_folder
  = ([Print [FStr ("=== Werewolf Card PDF Generator ===" +:+ nl)];
      Print [FStr "Error: ";
             FExc (FileNotFoundError "Cards directory 'Cartes' not found")]],
     1).
Proof. reflexivity. Qed.

(** The card list and the summary of the full scan. *)
Example full_scan_card_list :
  (inv ← categorize_cards full_scan; cards ← _prepare_card_list inv;
   Ok (map name cards))
  = Ok (replicate 6 "Simple Villageois.png" ++ replicate 4 "Loup Garou.png"
        ++ replicate 2 "Plumes du corbeau.png" ++ replicate 2 "Capitaine.png"
        ++ ["Sorciere.png"; "Voyante.png"; "Chasseur.png"]
        ++ replicate 11 "Dos-Cartes.png").
Proof. vm_compute. reflexivity. Qed.

Example full_scan_summary :
  (inv ← categorize_cards full_scan; _generate_content_summary inv)
  = Ok ["• 6x Villageois → 3x Villageois-Villageois";
        "• 4x Loup Garou (séparés)";
        "• 2x Plumes → 1x collée";
        "• 2x Capitaine → 1x collée";
        "• 3x Cartes spéciales";
        "• 11x Dos";
        "";
        "Total final : 14 cartes physiques"].
Proof. vm_compute. reflexivity. Qed.

(** With the back image alone the back line is there, with count 0. *)
Example back_scan_summary :
  (inv ← categorize_cards back_scan; _generate_content_summary inv)
  = Ok ["• 0x Dos"; ""; "Total final : -3 cartes physiques"].
Proof. vm_compute. reflexivity. Qed.

(** Seven cards on pages of six. *)
Example seven_cards_pages :
  (layout ← _calculate_layout (CardPDFGenerator_init OUTPUT_FILENAME);
   pages ← card_pages seven_cards layout;
   Ok (map (map (λ '(p, i), (name p, i))) pages))
  = Ok [[("a.png", 0); ("b.png", 1); ("c.png", 2);
         ("d.png", 3); ("e.png", 4); ("f.png", 5)];
        [("g.png", 0)]].
Proof. vm_compute. reflexivity. Qed.

(** * Further properties *)

(** ** Categorization keeps every path *)

Lemma matching_other_partition (files : list Path) :
  files ≡ₚ matching VILLAGER files ++ matching WEREWOLF files
          ++ matching FEATHERS files ++ matching CAPTAIN files
          ++ matching BACK files ++ other_files files.
Proof.
  induction files as [|p files IH]; [done|].
  rewrite !matching_cons, other_files_cons.
  set (mv := matching VILLAGER files) in *. set (mw := matching WEREWOLF files) in *.
  set (mf := matching FEATHERS files) in *. set (mc := matching CAPTAIN files) in *.
  set (mb := matching BACK files) in *. set (mo := other_files files) in *.
  destruct (decide (uncategorized p)) as [Hun|Hcat].
  - rewrite !decide_False by (by apply uncategorized_not_matches).
    rewrite (app_assoc mv), (app_assoc _ mf), (app_assoc _ mc), (app_assoc _ mb).
    apply Permutation_cons_app. by rewrite <- !app_assoc.
  - assert (∃ t, matches t p) as [t Ht].
    { destruct (type_mapping !! name p) as [t|] eqn:E.
      - exists t. by apply type_mapping_lookup.
      - by apply type_mapping_none in E. }
    assert (∀ t', t' ≠ t → ¬ matches t' p) as Hne.
    { intros t' Hne Ht'. apply Hne, value_inj. unfold matches in *. congruence. }
    destruct t.
    all: repeat first
      [ rewrite (decide_True (P := matches _ p)) by done
      | rewrite (decide_False (P := matches _ p)) by (by apply Hne) ].
    + by constructor.
    + by apply Permutation_cons_app.
    + rewrite (app_assoc mv). apply Permutation_cons_app. by rewrite <- !app_assoc.
    + rewrite (app_assoc mv), (app_assoc _ mf).
      apply Permutation_cons_app. by rewrite <- !app_assoc.
    + rewrite (app_assoc mv), (app_assoc _ mf), (app_assoc _ mc).
      apply Permutation_cons_app. by rewrite <- !app_assoc.
Qed.

(** X1. Categorization loses and duplicates nothing: the paths recorded
    under the five categories together with the other paths are the
    input paths, up to order; a recorded category is never empty and
    holds exactly the paths with its filename, in input order; the other
    paths are those with none of the five filenames, in input order. *)
Theorem categorize_partition (files : list Path) :
  ∃ inv,
    categorize_cards files = Ok inv
    ∧ files ≡ₚ concat ((λ t, default [] (categorized inv !! t)) <$> CardType_members)
               ++ others inv
    ∧ (∀ t l, categorized inv !! t = Some l →
         l ≠ [] ∧ l = filter (λ p, name p = value t) files)
    ∧ (∀ t, categorized inv !! t = None ↔ ∀ p, p ∈ files → name p ≠ value t)
    ∧ others inv = filter (λ p, name p ∉ value <$> CardType_members) files.
Proof.
  destruct (categorize_cards_ok files) as (inv & Hinv & Hcat & Hhas & Hothers & _).
  exists inv. split; [done|].
  assert (∀ t, default [] (categorized inv !! t) = matching t files) as Hdef.
  { intros t. rewrite Hcat. by case_decide as E; [rewrite E|]. }
  split.
  { unfold CardType_members. cbn [fmap list_fmap concat].
    rewrite !Hdef, Hothers, app_nil_r, <- !app_assoc.
    apply matching_other_partition. }
  split.
  { intros t l. rewrite Hcat. case_decide as E; [done|]. by intros [= <-]. }
  split.
  { intros t. rewrite Hcat. case_decide as E; split; try done.
    - intros _ p Hp Hname.
      assert (p ∈ matching t files) as Hin by by apply list_elem_of_filter.
      rewrite E in Hin. by apply not_elem_of_nil in Hin.
    - intros Hnone. destruct E. unfold matching.
      destruct (filter (matches t) files) as [|p l] eqn:Hf; [done|].
      assert (p ∈ filter (matches t) files) as Hin by (rewrite Hf; left).
      apply list_elem_of_filter in Hin as [Hm Hin]. by destruct (Hnone p Hin). }
  by rewrite Hothers.
Qed.

(** ** The quantities dictionary *)

(** X2. The dictionary [_calculate_quantities] returns has exactly
    thirteen keys, the eight counts and the five presence flags, and
    each flag tells whether its category was categorized. *)
Theorem quantities_keys_and_flags (cat : gmap CardType (list Path))
    (oth : list Path) :
  ∃ q,
    _calculate_quantities cat oth = Ok q
    ∧ dom q = list_to_set (quantity_names ++ flag_names)
    ∧ size q = 13%nat
    ∧ q !! "has_villageois" = Some (PyBool (has_type cat VILLAGER))
    ∧ q !! "has_loup_garou" = Some (PyBool (has_type cat WEREWOLF))
    ∧ q !! "has_plumes_corbeau" = Some (PyBool (has_type cat FEATHERS))
    ∧ q !! "has_capitaine" = Some (PyBool (has_type cat CAPTAIN))
    ∧ q !! "has_dos" = Some (PyBool (has_type cat BACK)).
Proof.
  eexists. rewrite calculate_quantities_eq. cbn zeta. split; [reflexivity|].
  assert (∀ q : gmap string pyval,
            dom q = list_to_set (quantity_names ++ flag_names) → size q = 13%nat)
    as Hsize.
  { intros q Hdom. rewrite <- size_dom, Hdom.
    rewrite size_list_to_set; [done|]. by compute_done. }
  match goal with |- dom ?m = _ ∧ _ => assert (dom m = list_to_set (quantity_names ++ flag_names)) as Hdom end.
  { rewrite !dom_insert_L, dom_empty_L.
    unfold quantity_names, flag_names. cbn [app list_to_set]. set_solver. }
  split; [exact Hdom|]. split; [by apply Hsize|].
  repeat split; by lookup_literal.
Qed.

(** X3. Whatever is categorized, the counts stay in bounds: the face
    total is at least the number of other files and at most 14 more; the
    back count is never negative, never more than the face total, and 0
    as long as there are no more than six face cards or the back image
    is absent; the total is at most twice the face total. *)
Theorem quantities_bounds (cat : gmap CardType (list Path)) (oth : list Path) :
  ∃ q face back,
    _calculate_quantities cat oth = Ok q
    ∧ total_face_cards (mkCardInventory cat oth q) = Ok (PyInt face)
    ∧ back_count (mkCardInventory cat oth q) = Ok (PyInt back)
    ∧ total_cards (mkCardInventory cat oth q) = Ok (PyInt (face + back))
    ∧ len oth ≤ face ≤ len oth + 14
    ∧ 0 ≤ back ≤ face
    ∧ (face ≤ 6 → back = 0)
    ∧ (has_type cat BACK = false → back = 0)
    ∧ (has_type cat BACK = true → 6 ≤ face → back = face - 6)
    ∧ face + back ≤ 2 * face.
Proof.
  destruct (_calculate_quantities cat oth) as [q|e] eqn:Hq;
    [|by rewrite calculate_quantities_eq in Hq].
  pose proof (calculate_quantities_lookup _ _ _ Hq) as H. cbn zeta in H.
  destruct H as (_ & _ & _ & _ & _ & Hface & Hdos & Htotal).
  eexists q, _, _. split; [done|].
  unfold total_face_cards, back_count, total_cards.
  rewrite (accessor_lookup _ _ _ _ _ Hface), (accessor_lookup _ _ _ _ _ Hdos),
    (accessor_lookup _ _ _ _ _ Htotal).
  do 3 (split; [reflexivity|]).
  assert (0 ≤ len oth) by (unfold len; lia).
  destruct (has_type cat VILLAGER), (has_type cat WEREWOLF),
    (has_type cat FEATHERS), (has_type cat CAPTAIN), (has_type cat BACK);
    cbn [base_quantity]; repeat split; intros; try discriminate; lia.
Qed.

(** ** The folder scan *)

Lemma name_card (s : string) : name (card s) = s.
Proof. reflexivity. Qed.

Lemma card_inj (s s' : string) : card s = card s' → s = s'.
Proof. intros H. by rewrite <- (name_card s), H. Qed.

Lemma matching_cards (t : CardType) (l : list string) :
  matching t (card <$> l) = card <$> filter (λ s, s = value t) l.
Proof.
  unfold matching. induction l as [|s l IH]; [done|]. cbn [fmap list_fmap].
  destruct (decide (s = value t)) as [Hs|Hs].
  - rewrite (filter_cons_True (matches t)) by (by unfold matches; rewrite name_card).
    rewrite (filter_cons_True (λ s, s = value t)) by done.
    cbn [fmap list_fmap]. by rewrite <- IH.
  - rewrite (filter_cons_False (matches t)) by (by unfold matches; rewrite name_card).
    by rewrite (filter_cons_False (λ s, s = value t)) by done.
Qed.

Lemma other_cards (l : list string) :
  other_files (card <$> l) = card <$> filter (λ s, s ∉ value <$> CardType_members) l.
Proof.
  unfold other_files. induction l as [|s l IH]; [done|]. cbn [fmap list_fmap].
  destruct (decide (s ∉ value <$> CardType_members)) as [Hs|Hs].
  - rewrite (filter_cons_True uncategorized)
      by (by unfold uncategorized; rewrite name_card).
    rewrite (filter_cons_True (λ s, s ∉ value <$> CardType_members)) by done.
    cbn [fmap list_fmap]. by rewrite <- IH.
  - rewrite (filter_cons_False uncategorized)
      by (by unfold uncategorized; rewrite name_card).
    by rewrite (filter_cons_False (λ s, s ∉ value <$> CardType_members)) by done.
Qed.

Lemma filter_eq_NoDup (v : string) (l : list string) :
  NoDup l → filter (λ s, s = v) l = if decide (v ∈ l) then [v] else [].
Proof.
  induction 1 as [|s l Hs Hl IH]; [done|].
  destruct (decide (s = v)) as [->|Hne].
  - rewrite filter_cons_True by done. rewrite decide_True by left.
    rewrite IH, decide_False by done. done.
  - rewrite filter_cons_False by done. rewrite IH.
    destruct (decide (v ∈ l)) as [Hin|Hin].
    + by rewrite decide_True by (by right).
    + rewrite decide_False; [done|]. by intros [->|?]%elem_of_cons.
Qed.

(** X4. When the cards directory exists the scan returns, in directory
    order, one path [Cartes/<entry>] for each entry whose name ends in
    [.png] (as written: [.PNG] does not count) and nothing else; with
    distinct entry names the paths are distinct and at most one of them
    carries the filename of a given category. *)
Theorem scan_card_files_paths (w : world) (entries : list string) :
  cards_dir w = Directory entries →
  ∃ files,
    scan_card_files w = Ok files
    ∧ name <$> files = filter (λ s, ends_with ".png" s = true) entries
    ∧ path_str <$> files
      = (λ s, "Cartes/" +:+ s) <$> filter (λ s, ends_with ".png" s = true) entries
    ∧ (∀ s, card s ∈ files ↔ s ∈ entries ∧ ends_with ".png" s = true)
    ∧ (NoDup entries →
       NoDup files ∧ ∀ t, (length (matching t files) ≤ 1)%nat).
Proof.
  intros Hdir. rewrite (scan_directory _ _ Hdir). eexists. split; [reflexivity|].
  assert (filter (λ s, ends_with ".png" s) entries
          = filter (λ s, ends_with ".png" s = true) entries) as ->.
  { apply list_filter_iff. intros s. by destruct (ends_with ".png" s). }
  set (l := filter _ entries).
  split. { rewrite <- list_fmap_compose. rewrite <- (list_fmap_id l) at 2.
           apply list_fmap_ext. intros ? s _. apply name_card. }
  split. { rewrite <- list_fmap_compose. by apply list_fmap_ext. }
  split.
  { intros s. rewrite list_elem_of_fmap. unfold l. split.
    - intros (s' & ->%card_inj & Hs'). apply list_elem_of_filter in Hs'. tauto.
    - intros [Hin Hpng]. exists s. split; [done|]. by apply list_elem_of_filter. }
  intros Hnodup.
  assert (NoDup l) as Hl by by apply NoDup_filter.
  split. { apply NoDup_fmap_2; [|done]. intros s s'. apply card_inj. }
  intros t. rewrite matching_cards, length_fmap, (filter_eq_NoDup _ _ Hl).
  case_decide; cbn; lia.
Qed.

Lemma scan_card_files_paths_witness :
  cards_dir sample_folder
  = Directory ["Capitaine.png"; "notes.txt"; "Dos-Cartes.png"; "Loup Garou.png";
               "Plumes du corbeau.png"; "Simple Villageois.png";
               "Voyante.png"; "Voyante.PNG"; "Chasseur.png"]
  ∧ ∃ files,
      scan_card_files sample_folder = Ok files
      ∧ name <$> files
        = ["Capitaine.png"; "Dos-Cartes.png"; "Loup Garou.png";
           "Plumes du corbeau.png"; "Simple Villageois.png";
           "Voyante.png"; "Chasseur.png"].
Proof.
  split; [reflexivity|].
  destruct (scan_card_files_paths sample_folder _ eq_refl)
    as (files & Hscan & Hnames & _).
  exists files. split; [exact Hscan|]. rewrite Hnames. vm_compute. reflexivity.
Defined.

(** X5. From a folder with distinct entry names the inventory is read
    off the entries: a category is recorded exactly when the folder has
    an entry with its filename, and then holds that one path; the other
    paths are the remaining [.png] entries in directory order, and
    entries that do not end in [.png] play no part. *)
Theorem folder_inventory (w : world) (entries : list string) :
  cards_dir w = Directory entries → NoDup entries →
  ∃ files inv,
    scan_card_files w = Ok files
    ∧ categorize_cards files = Ok inv
    ∧ (∀ t, categorized inv !! t
            = if decide (value t ∈ entries) then Some [card (value t)] else None)
    ∧ (∀ t, present files t = bool_decide (value t ∈ entries))
    ∧ others inv
      = card <$> filter (λ s, ends_with ".png" s = true
                              ∧ s ∉ value <$> CardType_members) entries.
Proof.
  intros Hdir Hnodup. rewrite (scan_directory _ _ Hdir).
  assert (filter (λ s, ends_with ".png" s) entries
          = filter (λ s, ends_with ".png" s = true) entries) as ->.
  { apply list_filter_iff. intros s. by destruct (ends_with ".png" s). }
  set (l := filter _ entries).
  assert (NoDup l) as Hl by by apply NoDup_filter.
  assert (∀ t, value t ∈ l ↔ value t ∈ entries) as Hin.
  { intros t. unfold l. rewrite list_elem_of_filter.
    assert (ends_with ".png" (value t) = true) by by destruct t. tauto. }
  assert (∀ t, matching t (card <$> l)
               = if decide (value t ∈ entries) then [card (value t)] else []) as Hm.
  { intros t. rewrite matching_cards, (filter_eq_NoDup _ _ Hl).
    destruct (decide (value t ∈ l)) as [H|H]; apply Hin in H || rewrite Hin in H.
    - by rewrite decide_True.
    - by rewrite decide_False. }
  destruct (categorize_cards_ok (card <$> l)) as (inv & Hinv & Hcat & _ & Hothers & _).
  exists (card <$> l), inv. do 2 (split; [done|]).
  split. { intros t. rewrite Hcat, Hm. by repeat case_decide. }
  split. { intros t. unfold present. rewrite Hm.
           case_decide.
           - by rewrite !bool_decide_eq_true_2.
           - rewrite (bool_decide_eq_false_2 (_ ∈ _)) by done.
             apply bool_decide_eq_false_2. by intros H'. }
  rewrite Hothers, other_cards. f_equal. unfold l.
  rewrite list_filter_filter. apply list_filter_iff. intros s. tauto.
Qed.

Lemma folder_inventory_witness :
  ∃ entries,
    cards_dir sample_folder = Directory entries ∧ NoDup entries
    ∧ ∃ files inv,
        scan_card_files sample_folder = Ok files
        ∧ categorize_cards files = Ok inv
        ∧ (∀ t, present files t = bool_decide (value t ∈ entries))
        ∧ others inv = [card "Voyante.png"; card "Chasseur.png"].
Proof.
  eexists. split; [reflexivity|].
  assert (NoDup ["Capitaine.png"; "notes.txt"; "Dos-Cartes.png"; "Loup Garou.png";
                 "Plumes du corbeau.png"; "Simple Villageois.png";
                 "Voyante.png"; "Voyante.PNG"; "Chasseur.png"]) as Hnodup
    by (apply (bool_decide_unpack _); vm_compute; exact I).
  split; [exact Hnodup|].
  destruct (folder_inventory sample_folder _ eq_refl Hnodup)
    as (files & inv & Hscan & Hinv & _ & Hpresent & Hothers).
  exists files, inv. do 3 (split; [assumption|]).
  rewrite Hothers. vm_compute. reflexivity.
Defined.

(** ** The card list of an arbitrary inventory *)

Lemma copies_length_general (inv : CardInventory) (t : CardType) (n : Z) :
  nonempty_categories inv →
  length (copies inv t n)
  = Z.to_nat (if has_type (categorized inv) t then n else 0).
Proof.
  intros Hwf. destruct (has_type (categorized inv) t) eqn:Hhas.
  - apply bool_decide_eq_true in Hhas as [l Hl].
    destruct (getitem_first inv t l Hl (Hwf _ _ Hl)) as (p & Hrep & _).
    rewrite (copies_present inv t n p Hrep). apply length_replicate.
  - by rewrite copies_absent.
Qed.

(** X6. For any inventory, also one built by hand, whose recorded
    categories are not empty and whose five counts are present, the
    expansion succeeds and is the five blocks around the other paths;
    the count of a category that is not recorded is ignored, a count
    that is not positive gives no card, and the length of the list is
    the sum of the counts that apply and the number of other paths. *)
Theorem card_list_general (inv : CardInventory) (nv nw nf nc nb : pyval) :
  nonempty_categories inv →
  quantities inv !! "villageois_count" = Some nv →
  quantities inv !! "loup_garou_count" = Some nw →
  quantities inv !! "plumes_corbeau_count" = Some nf →
  quantities inv !! "capitaine_count" = Some nc →
  quantities inv !! "dos_count" = Some nb →
  let applied t n := if has_type (categorized inv) t then Z.max 0 (as_int n) else 0 in
  ∃ cards,
    _prepare_card_list inv = Ok cards
    ∧ cards = copies inv VILLAGER (as_int nv) ++ copies inv WEREWOLF (as_int nw)
              ++ copies inv FEATHERS (as_int nf) ++ copies inv CAPTAIN (as_int nc)
              ++ others inv ++ copies inv BACK (as_int nb)
    ∧ len cards = applied VILLAGER nv + applied WEREWOLF nw + applied FEATHERS nf
                  + applied CAPTAIN nc + len (others inv) + applied BACK nb.
Proof.
  intros Hwf Hv Hw Hf Hc Hb applied. eexists. split.
  { by apply (prepare_card_list_eq inv nv nw nf nc nb). }
  split; [reflexivity|].
  unfold len. rewrite !length_app, !copies_length_general by done.
  unfold applied.
  destruct (has_type (categorized inv) VILLAGER), (has_type (categorized inv) WEREWOLF),
    (has_type (categorized inv) FEATHERS), (has_type (categorized inv) CAPTAIN),
    (has_type (categorized inv) BACK); lia.
Qed.

Lemma card_list_general_witness :
  nonempty_categories hand_inventory
  ∧ ∃ cards,
      _prepare_card_list hand_inventory = Ok cards
      ∧ cards = [card "Loup Garou.png"; card "Loup Garou.png";
                 card "Loup Garou.png"; card "Voyante.png"]
      ∧ len cards = 4.
Proof.
  assert (nonempty_categories hand_inventory) as Hwf.
  { intros t l. destruct t; vm_compute; intros [= <-]; discriminate. }
  split; [exact Hwf|].
  destruct (card_list_general hand_inventory (PyInt 5) (PyInt 3) (PyInt 0)
              (PyInt 0) (PyInt 2) Hwf eq_refl eq_refl eq_refl eq_refl eq_refl)
    as (cards & Hlist & Hcards & Hlen).
  exists cards. split; [exact Hlist|]. split.
  - rewrite Hcards. vm_compute. reflexivity.
  - rewrite Hlen. vm_compute. reflexivity.
Defined.

(** One step of the expansion, for a countable category. *)
Lemma extend_ok (inv : CardInventory) (cards : list Path) (t : CardType) :
  expands inv t → ∃ cards', extend_with_type inv cards t = Ok cards'.
Proof.
  intros Hexp. unfold extend_with_type.
  destruct (od_find QUANTITY_KEYS t) as [key|] eqn:Hkey; [|by eexists].
  destruct Hexp as [Hnone|(n & Hn & Hfirst)].
  - unfold has_type. rewrite Hnone.
    rewrite (bool_decide_eq_false_2 (is_Some None)) by by intros [? ?].
    rewrite andb_false_r. by eexists.
  - destruct (_ && _); [|by eexists].
    assert (count_key t = key) as Hk by (destruct t; by inversion Hkey).
    rewrite Hk in Hn. unfold dict_getitem. rewrite Hn. cbn [mbind result_bind].
    case_bool_decide as Hpos; [|by eexists].
    destruct (Hfirst Hpos) as (p & l & Hl). unfold cat_getitem. rewrite Hl.
    by eexists.
Qed.

Lemma extend_raises (inv : CardInventory) (cards : list Path) (t : CardType)
    (paths : list Path) :
  t ≠ BACK → categorized inv !! t = Some paths →
  (quantities inv !! count_key t = None →
   extend_with_type inv cards t = Raise (KeyError (count_key t)))
  ∧ (∀ n, quantities inv !! count_key t = Some n → 0 < as_int n → paths = [] →
       extend_with_type inv cards t = Raise IndexError).
Proof.
  intros Hcountable Hpaths. unfold extend_with_type.
  assert (od_find QUANTITY_KEYS t = Some (count_key t) ∧ count_key t ≠ "")
    as [-> Hne] by by destruct t.
  assert (has_type (categorized inv) t = true) as ->
    by (apply bool_decide_eq_true; by eexists).
  rewrite bool_decide_eq_true_2 by done. cbn [andb]. unfold dict_getitem. split.
  - by intros ->.
  - intros n -> Hpos ->. cbn [mbind result_bind].
    rewrite bool_decide_eq_true_2 by done.
    unfold cat_getitem. by rewrite Hpaths.
Qed.

(** X7. The first category that cannot be expanded decides how
    [_prepare_card_list] fails.  When every category visited before a
    recorded category [t] is passed without raising, the function
    raises [KeyError] with the key of the count of [t] if that count is
    missing, and [IndexError], from the access to the first path, if
    the count is positive and [t] is recorded with an empty list. *)
Theorem card_list_first_failure (inv : CardInventory) (t : CardType)
    (before after : list CardType) (paths : list Path) :
  expansion_order = before ++ t :: after →
  Forall (expands inv) before →
  categorized inv !! t = Some paths →
  (quantities inv !! count_key t = None →
   _prepare_card_list inv = Raise (KeyError (count_key t)))
  ∧ (∀ n, quantities inv !! count_key t = Some n → 0 < as_int n → paths = [] →
       _prepare_card_list inv = Raise IndexError).
Proof.
  intros Horder Hbefore Hpaths. unfold expansion_order in Horder.
  destruct before as [|b1 [|b2 [|b3 [|b4 [|b5 before]]]]];
    cbn [app] in Horder; simplify_eq;
    [..|by destruct before].
  all: repeat match goal with
         | H : Forall _ (_ :: _) |- _ => apply Forall_cons in H as [? H]
         end.
  all: unfold _prepare_card_list; cbn [result_fold].
  all: repeat match goal with
         | H : expands ?i ?b |- context [extend_with_type ?i ?c ?b] =>
             let c' := fresh "cards" in
             let Hc := fresh "Hc" in
             destruct (extend_ok i c b H) as [c' Hc]; rewrite Hc; clear H Hc;
             cbn [mbind result_bind result_fold]
         end.
  1-4: match goal with
       | |- context [extend_with_type ?i ?c ?b] =>
           destruct (extend_raises i c b paths ltac:(done) Hpaths) as [Hkey Hidx]
       end.
  1-4: split; [intros Hnone; by rewrite (Hkey Hnone)
              |intros n Hn Hpos Hnil; by rewrite (Hidx n Hn Hpos Hnil)].
  assert (has_type (categorized inv) BACK = true) as ->
    by (apply bool_decide_eq_true; by eexists).
  unfold back_count, dict_getitem. change (count_key BACK) with "dos_count".
  split.
  - by intros ->.
  - intros n -> Hpos ->. cbn [mbind result_bind].
    rewrite bool_decide_eq_true_2 by done.
    unfold cat_getitem. by rewrite Hpaths.
Qed.

Lemma card_list_first_failure_witness :
  (Forall (expands empty_wolf_inventory) [VILLAGER]
   ∧ _prepare_card_list empty_wolf_inventory = Raise IndexError)
  ∧ (categorized no_count_inventory !! WEREWOLF = Some []
     ∧ quantities no_count_inventory !! "loup_garou_count" = Some (PyInt 4)
     ∧ _prepare_card_list no_count_inventory = Raise (KeyError "villageois_count")).
Proof.
  assert (Forall (expands empty_wolf_inventory) [VILLAGER]) as Hbefore
    by (constructor; [by left|constructor]).
  split.
  - split; [exact Hbefore|].
    exact (proj2 (card_list_first_failure empty_wolf_inventory WEREWOLF
                    [VILLAGER] [FEATHERS; CAPTAIN; BACK] [] eq_refl Hbefore eq_refl)
                 (PyInt 4) eq_refl eq_refl eq_refl).
  - split; [reflexivity|]. split; [reflexivity|].
    exact (proj1 (card_list_first_failure no_count_inventory VILLAGER
                    [] [WEREWOLF; FEATHERS; CAPTAIN; BACK]
                    [card "Simple Villageois.png"] eq_refl (Forall_nil_2 _) eq_refl)
                 eq_refl).
Defined.

(** ** Running a drawing computation *)


Lemma runs_emit (e : event) : runs (emit e) [e] tt.
Proof. reflexivity. Qed.

Lemma runs_print (s : string) : runs (print s) [Print [FStr s]] tt.
Proof. reflexivity. Qed.

Lemma runs_lift {A} (r : result A) (a : A) : r = Ok a → runs (lift r) [] a.
Proof. by intros ->. Qed.

Lemma runs_bind {A B} (m : io A) (k : A → io B) (t t' : list event) (a : A) (b : B) :
  runs m t a → runs (k a) t' b → runs (m ≫= k) (t ++ t') b.
Proof. unfold runs. intros -> Hk. unfold mbind, io_bind. by rewrite Hk. Qed.


Lemma raise_bind {A B} (m : io A) (k : A → io B) (t : list event) (e : exception) :
  m = IO t (Raise e) → (m ≫= k) = IO t (Raise e).
Proof. by intros ->. Qed.


Lemma omap_concat {A B} (f : A → option B) (ls : list (list A)) :
  omap f (concat ls) = concat ((λ l : list A, omap f l) <$> ls).
Proof.
  induction ls as [|l ls IH]; [done|].
  cbn [concat fmap list_fmap]. by rewrite omap_app, IH.
Qed.

(** ** Drawing one card *)






(** ** The six slots of the A4 page *)

Lemma small_position (position : Z) :
  0 ≤ position < 6 →
  position = 0 ∨ position = 1 ∨ position = 2 ∨ position = 3 ∨ position = 4
  ∨ position = 5.
Proof. lia. Qed.

Lemma origin_A4 (output : string) (position : Z) :
  0 ≤ position < 6 →
  ∃ x y,
    card_origin (CardPDFGenerator_init output) a4_layout position = Ok (x, y)
    ∧ square_inside (CardPDFGenerator_init output) (card_size a4_layout) x y = true.
Proof.
  intros Hpos.
  destruct (small_position position Hpos) as [->|[->|[->|[->|[->| ->]]]]];
    eexists _, _; (split; [vm_compute; reflexivity|vm_compute; reflexivity]).
Qed.

(** X9. On the A4 page the six positions are painted in squares that lie
    inside the printable area (15 mm margins) and do not overlap each
    other, in the program's binary64 arithmetic. *)
Theorem slots_A4 (output : string) :
  ∃ layout,
    _calculate_layout (CardPDFGenerator_init output) = Ok layout
    ∧ cards_per_page layout = 6
    ∧ (∀ position,
         0 ≤ position < cards_per_page layout →
         ∃ x y,
           card_origin (CardPDFGenerator_init output) layout position = Ok (x, y)
           ∧ square_inside (CardPDFGenerator_init output) (card_size layout) x y
             = true)
    ∧ (∀ position position' x y x' y',
         0 ≤ position < cards_per_page layout →
         0 ≤ position' < cards_per_page layout →
         position ≠ position' →
         card_origin (CardPDFGenerator_init output) layout position = Ok (x, y) →
         card_origin (CardPDFGenerator_init output) layout position' = Ok (x', y') →
         squares_apart (card_size layout) x y x' y' = true).
Proof.
  eexists. split; [apply calculate_layout_A4|]. split; [reflexivity|].
  change (cards_per_page _) with 6. cbn [card_size]. split.
  - intros position Hpos. apply origin_A4, Hpos.
  - intros position position' x y x' y' Hpos Hpos' Hne.
    destruct (small_position position Hpos) as [->|[->|[->|[->|[->| ->]]]]];
      destruct (small_position position' Hpos') as [->|[->|[->|[->|[->| ->]]]]];
      try done; vm_compute; intros [= <- <-] [= <- <-]; reflexivity.
Qed.

Lemma slots_A4_witness :
  ∃ layout,
    _calculate_layout (CardPDFGenerator_init OUTPUT_FILENAME) = Ok layout
    ∧ 0 ≤ 1 < cards_per_page layout
    ∧ 0 ≤ 2 < cards_per_page layout
    ∧ ∃ x y x' y',
        card_origin (CardPDFGenerator_init OUTPUT_FILENAME) layout 1 = Ok (x, y)
        ∧ card_origin (CardPDFGenerator_init OUTPUT_FILENAME) layout 2 = Ok (x', y')
        ∧ square_inside (CardPDFGenerator_init OUTPUT_FILENAME) (card_size layout) x y
          = true
        ∧ squares_apart (card_size layout) x y x' y' = true.
Proof.
  destruct (slots_A4 OUTPUT_FILENAME) as (layout & Hlayout & Hcap & Hinside & Hapart).
  exists layout. split; [exact Hlayout|].
  assert (0 ≤ 1 < cards_per_page layout) as H1 by (rewrite Hcap; lia).
  assert (0 ≤ 2 < cards_per_page layout) as H2 by (rewrite Hcap; lia).
  split; [exact H1|]. split; [exact H2|].
  destruct (Hinside 1 H1) as (x & y & Hxy & Hin).
  destruct (Hinside 2 H2) as (x' & y' & Hxy' & _).
  exists x, y, x', y'. split; [exact Hxy|]. split; [exact Hxy'|].
  split; [exact Hin|].
  apply (Hapart 1 2 x y x' y' H1 H2 ltac:(lia) Hxy Hxy').
Defined.

(** ** Drawing the card pages on A4 *)




Section a4_pages.
Variables (w : world) (output : string).

Abbreviation G := (CardPDFGenerator_init output).
Abbreviation L := a4_layout.





End a4_pages.






(** ** The instructions page *)

Ltac run_closed := unfold runs; vm_compute; reflexivity.

Ltac run_step tac :=
  lazymatch goal with
  | |- runs (_ ≫= _) _ _ =>
      eapply runs_bind;
      [ first
          [ tac
          | lazymatch goal with
            | |- runs (emit _) _ _ => apply runs_emit
            | |- runs (print _) _ _ => apply runs_print
            | |- _ => run_closed
            end ]
      | cbv beta ]
  end.


Lemma content_loop_runs (margin_left y : float) (items : list string) :
  runs (io_fold (λ y_pos item,
          (if bool_decide (item ≠ "")
           then indent ← lift (int_mul_float 5 mm);
                emit (DrawString (margin_left + indent) y_pos item)
           else mret tt);;
          down y_pos 5) y items)
       (content_lines (margin_left + 5 * mm) y items)
       (foldl (λ y_pos _, (y_pos - 5 * mm)%float) y items).
Proof.
  revert y. induction items as [|item items IH]; intros y; [reflexivity|].
  cbn [io_fold content_lines foldl].
  eapply runs_bind; [|apply IH].
  rewrite <- (app_nil_r (if bool_decide _ then _ else _)).
  eapply runs_bind; [|reflexivity].
  case_bool_decide; reflexivity.
Qed.

Lemma content_lines_text (x y : float) (items : list string) :
  omap drawn_text (content_lines x y items) = filter (λ s, s ≠ "") items
  ∧ Forall (λ e, is_text_event e = true) (content_lines x y items).
Proof.
  revert y. induction items as [|item items IH]; intros y; [done|].
  cbn [content_lines]. destruct (IH (y - 5 * mm)%float) as [IHt IHf].
  rewrite omap_app, IHt. case_bool_decide.
  - rewrite filter_cons_True by done. split; [done|]. by constructor.
  - rewrite filter_cons_False by (by intros ?). by split.
Qed.


(** X11. Whenever the summary of the inventory can be computed,
    [_add_instructions_page] runs to the end with font and text calls
    only -- no image, no page break -- and writes, in this order, the
    title, the guide heading, each section with its lines, the contents
    heading, the summary lines that are not empty, and the two footer
    lines. *)
Theorem instructions_page (output : string) (inv : CardInventory)
    (items : list string) :
  _generate_content_summary inv = Ok items →
  ∃ t,
    runs (_add_instructions_page (CardPDFGenerator_init output) inv) t tt
    ∧ Forall (λ e, is_text_event e = true) t
    ∧ omap drawn_text t
      = ["🐺 Loup-Garou de Crénin"; "Guide d'impression"]
        ++ concat ((λ '(title, lines), title :: lines) <$> sections)
        ++ ["🎲 Contenu"]
        ++ filter (λ s, s ≠ "") items
        ++ ["Loup-Garou de Crénin - Open source sur GitHub"; "Bon jeu ! 🌙"].
Proof.
  intros Hsummary. eexists. split.
  { unfold _add_instructions_page.
    repeat run_step ltac:(idtac; lazymatch goal with
      | |- runs (lift (_generate_content_summary _)) _ _ =>
          apply runs_lift; exact Hsummary
      | |- runs (io_fold _ _ items) _ _ => apply content_loop_runs
      end).
    apply runs_emit. }
  cbn [app]. split.
  - repeat (constructor; [reflexivity|]).
    apply Forall_app. split; [apply content_lines_text|].
    by repeat constructor.
  - cbn [omap list_omap drawn_text].
    rewrite omap_app, (proj1 (content_lines_text _ _ _)).
    reflexivity.
Qed.

Lemma instructions_page_witness :
  _generate_content_summary hand_summary_inventory
  = Ok ["• 3x Loup Garou (séparés)"; ""; "Total final : 1 cartes physiques"]
  ∧ ∃ t,
      runs (_add_instructions_page (CardPDFGenerator_init OUTPUT_FILENAME)
              hand_summary_inventory) t tt
      ∧ Forall (λ e, is_text_event e = true) t.
Proof.
  assert (_generate_content_summary hand_summary_inventory
          = Ok ["• 3x Loup Garou (séparés)"; ""; "Total final : 1 cartes physiques"])
    as Hsummary by (vm_compute; reflexivity).
  split; [exact Hsummary|].
  destruct (instructions_page OUTPUT_FILENAME hand_summary_inventory _ Hsummary)
    as (t & Hruns & Htext & _).
  exists t. split; [exact Hruns|exact Htext].
Defined.


(** ** A whole run *)









(** The sample folder when the document cannot be written: everything
    is drawn, nothing is saved, and the run ends with exit code 1. *)
Example main_read_only_folder :
  (main read_only_folder).2 = 1
  ∧ List.filter opens_or_closes (main read_only_folder).1
    = [NewCanvas OUTPUT_FILENAME]
  ∧ last (main read_only_folder).1
    = Some (Print [FStr "Unexpected error: ";
                   FExc (PermissionError "cartes_impression.pdf")]).
Proof. vm_compute. by repeat split. Qed.

(** ** Saving the document *)










